(** * Statement analysis front end: validation, aggregation, session control

  A shallow embedding of the transaction pipeline of the front end:

  - [validTransactions]  (src/frontend/src/App.jsx, the filter applied to
    the analyzer's response),
  - [DashboardMetrics]   (src/frontend/src/components/DashboardMetrics.jsx),
  - [spendingByCategory] (src/frontend/src/components/CategoryPieChart.jsx),
  - [handleFileChange] and [handleSubmit] (src/frontend/src/App.jsx).

  (The repository also keeps an earlier, fetch-based App component that stores
  the response without validating it; the development is about the component
  above.)

  The code is JavaScript running on data parsed from JSON, so the embedding
  carries the part of the language semantics the code relies on: IEEE-754
  binary64 numbers, truthiness, [typeof], property reads, the conversions
  behind [<], [>], [+], template literals and computed property keys, and
  exceptions. *)

From Stdlib Require Import ZArith String List Bool Lia.
From Stdlib Require Import Floats.SpecFloat.
From stdpp Require Import base option list strings pretty gmap.

Open Scope string_scope.
Open Scope Z_scope.

(** ** Numbers: IEEE-754 binary64 *)

Module Number.

Abbreviation number := spec_float.

Definition prec : Z := 53.
Definition emax : Z := 1024.

Definition zero : number := S754_zero false.
Definition NaN : number := S754_nan.
Definition Infinity : number := S754_infinity false.
Definition NegInfinity : number := S754_infinity true.

(** The double nearest to an integer literal. *)
Definition of_Z (z : Z) : number := binary_normalize prec emax z 0 false.

Definition add (x y : number) : number := SFadd prec emax x y.
Definition abs (x : number) : number := SFabs x.
Definition ltb (x y : number) : bool := SFltb x y.
Definition leb (x y : number) : bool := SFleb x y.

Definition is_nan (x : number) : bool :=
  match x with S754_nan => true | _ => false end.

Definition is_zero (x : number) : bool :=
  match x with S754_zero _ => true | _ => false end.

Definition is_finite (x : number) : bool :=
  match x with
  | S754_zero _ | S754_finite _ _ _ => true
  | S754_infinity _ | S754_nan => false
  end.

(** Not NaN and sign bit clear: +0, a positive double or +Infinity. *)
Definition signless (x : number) : bool :=
  match x with
  | S754_nan => false
  | S754_zero s | S754_infinity s | S754_finite s _ _ => negb s
  end.

End Number.
Import Number.

(** ** Completions: a value or a thrown exception *)

Inductive exn : Type :=
| TypeError (msg : string).

Inductive completion (A : Type) : Type :=
| Normal (a : A)
| Throw (e : exn).
Arguments Normal {A} a.
Arguments Throw {A} e.

#[global] Instance completion_ret : MRet completion := fun _ a => Normal a.
#[global] Instance completion_bind : MBind completion := fun _ _ k m =>
  match m with
  | Normal a => k a
  | Throw e => Throw e
  end.

(** ** Values

  Primitives and the two kinds of objects that [JSON.parse] builds.  No
  value of this type is callable. *)

Inductive prim : Type :=
| PUndefined
| PNull
| PBoolean (b : bool)
| PNumber (n : number)
| PString (s : string).

#[local] Set Warnings "-register-all".
Inductive value : Type :=
| VPrim (p : prim)
| VObject (props : list (string * value))
| VArray (elems : list value).

Coercion VPrim : prim >-> value.

Abbreviation VUndefined := (VPrim PUndefined).
Abbreviation VNull := (VPrim PNull).
Abbreviation VBoolean b := (VPrim (PBoolean b)).
Abbreviation VNumber n := (VPrim (PNumber n)).
Abbreviation VString s := (VPrim (PString s)).

(** Own data property of an object, first binding wins. *)
Fixpoint own_property (props : list (string * value)) (k : string) : option value :=
  match props with
  | [] => None
  | (k', v) :: rest => if String.eqb k' k then Some v else own_property rest k
  end.

(** The property names every ordinary object inherits from
  [Object.prototype]. *)
Definition ObjectPrototype_names : list string :=
  [ "constructor"; "__defineGetter__"; "__defineSetter__"; "hasOwnProperty";
  "__lookupGetter__"; "__lookupSetter__"; "isPrototypeOf";
  "propertyIsEnumerable"; "toString"; "valueOf"; "__proto__";
  "toLocaleString" ].

(** The property names the source reads from response data. *)
Inductive field : Type := description | amount | date | category | detail.

Definition field_name (f : field) : string :=
  match f with
  | description => "description"
  | amount => "amount"
  | date => "date"
  | category => "category"
  | detail => "detail"
  end.

(** [v.f] for one of the names above.  None of them is inherited from
  [Object.prototype] (see [field_not_inherited]), nor is one an index,
  [length], or a member of the array or primitive wrapper prototypes:
  where the value has no such own property the read yields [undefined].
  Reading from [undefined] or [null] throws. *)
Definition Get (v : value) (f : field) : completion value :=
  match v with
  | VPrim PUndefined | VPrim PNull =>
    Throw (TypeError ("Cannot read properties of undefined or null (reading '"
                        +:+ field_name f +:+ "')"))
  | VObject props => Normal (default VUndefined (own_property props (field_name f)))
  | VPrim _ | VArray _ => Normal VUndefined
  end.

(** ToBoolean *)
Definition ToBoolean_prim (p : prim) : bool :=
  match p with
  | PUndefined | PNull => false
  | PBoolean b => b
  | PNumber n => negb (is_zero n || is_nan n)
  | PString s => negb (String.eqb s "")
  end.

Definition ToBoolean (v : value) : bool :=
  match v with
  | VPrim p => ToBoolean_prim p
  | VObject _ | VArray _ => true
  end.

(** [typeof v] *)
Definition typeof (v : value) : string :=
  match v with
  | VPrim PUndefined => "undefined"
  | VPrim PNull => "object"
  | VPrim (PBoolean _) => "boolean"
  | VPrim (PNumber _) => "number"
  | VPrim (PString _) => "string"
  | VObject _ | VArray _ => "object"
  end.

(** [v === s] and [v !== s] against a string literal [s]. *)
Definition strict_eq_string (v : value) (s : string) : bool :=
  match v with
  | VPrim (PString t) => String.eqb t s
  | _ => false
  end.

(** [a && b]: the left operand when it is falsy, else the right one. *)
Definition js_and (a b : completion value) : completion value :=
  x ← a; if ToBoolean x then b else Normal x.

(** [a || b] *)
Definition js_or (a b : completion value) : completion value :=
  x ← a; if ToBoolean x then Normal x else b.

Notation "a &&& b" := (js_and a b) (at level 40, left associativity).
Notation "a ||| b" := (js_or a b) (at level 50, left associativity).

(** [Array.prototype.filter]: the callback's result goes through ToBoolean;
  an exception in the callback ends the traversal. *)
Fixpoint filterM {A : Type} (f : A -> completion value) (l : list A) : completion (list A) :=
  match l with
  | [] => Normal []
  | x :: rest =>
    b ← f x;
    kept ← filterM f rest;
    Normal (if ToBoolean b then x :: kept else kept)
  end.

(** [Array.prototype.reduce] with an initial value. *)
Fixpoint reduceM {A B : Type} (f : B -> A -> completion B) (l : list A) (init : B) : completion B :=
  match l with
  | [] => Normal init
  | x :: rest => acc ← f init x; reduceM f rest acc
  end.

(** ** Host conversions

  Three conversions are built into the engine and not part of the
  repository: number to string, string to number, and the source text a
  built-in function converts to.  The development is parametric in them. *)

Class Host : Type := {
  NumberToString : number -> string;
  StringToNumber : string -> number;
  FunctionToString : string -> string
}.

Section Conversions.
Context `{Host}.

Definition ToString_prim (p : prim) : string :=
  match p with
  | PUndefined => "undefined"
  | PNull => "null"
  | PBoolean true => "true"
  | PBoolean false => "false"
  | PNumber n => NumberToString n
  | PString s => s
  end.

Definition ToNumber_prim (p : prim) : number :=
  match p with
  | PUndefined => NaN
  | PNull => zero
  | PBoolean true => of_Z 1
  | PBoolean false => zero
  | PNumber n => n
  | PString s => StringToNumber s
  end.

(** ToPrimitive.  An object built by [JSON.parse] inherits [valueOf]
    (which returns the object itself) and [toString] (which returns
    "[object Object]") unless it has an own property of that name; an own
    property is never callable, so an own [toString] leaves no method that
    yields a primitive and the conversion throws.  An array converts
    through [join]: elements separated by commas, [undefined] and [null]
    as the empty string.  The result is the same for every hint. *)
Fixpoint ToPrimitive (v : value) : completion prim :=
  match v with
  | VPrim p => Normal p
  | VObject props =>
      match own_property props "toString" with
      | Some _ => Throw (TypeError "Cannot convert object to primitive value")
      | None => Normal (PString "[object Object]")
      end
  | VArray elems =>
      let piece (x : value) : completion string :=
        match x with
        | VPrim PUndefined | VPrim PNull => Normal ""
        | _ => p ← ToPrimitive x; Normal (ToString_prim p)
        end in
      let fix join (l : list value) : completion string :=
        match l with
        | [] => Normal ""
        | [x] => piece x
        | x :: rest => a ← piece x; b ← join rest; Normal (a +:+ "," +:+ b)
        end in
      s ← join elems; Normal (PString s)
  end.

Definition ToString (v : value) : completion string :=
  p ← ToPrimitive v; Normal (ToString_prim p).

Definition ToNumber (v : value) : completion number :=
  p ← ToPrimitive v; Normal (ToNumber_prim p).

(** ToPropertyKey, for [acc[category]]. *)
Definition ToPropertyKey (v : value) : completion string := ToString v.

(** The global [isNaN]. *)
Definition isNaN (v : value) : completion value :=
  n ← ToNumber v; Normal (VBoolean (is_nan n)).

(** [!v] *)
Definition js_not (v : completion value) : completion value :=
  x ← v; Normal (VBoolean (negb (ToBoolean x))).

(** [Math.abs] *)
Definition Math_abs (v : value) : completion number :=
  n ← ToNumber v; Normal (abs n).

(** [l + r] on primitives: concatenation when either side is a string,
    else numeric addition. *)
Definition add_prim (l r : prim) : prim :=
  match l, r with
  | PString _, _ | _, PString _ => PString (ToString_prim l +:+ ToString_prim r)
  | _, _ => PNumber (add (ToNumber_prim l) (ToNumber_prim r))
  end.

Definition js_add (l r : value) : completion prim :=
  lp ← ToPrimitive l; rp ← ToPrimitive r; Normal (add_prim lp rp).

(** [l < r] on primitives: two strings compare as strings, anything else
    as numbers; a comparison with NaN is false. *)
Definition lt_prim (l r : prim) : bool :=
  match l, r with
  | PString s, PString t => String.ltb s t
  | _, _ => ltb (ToNumber_prim l) (ToNumber_prim r)
  end.

Definition js_lt (l r : value) : completion value :=
  lp ← ToPrimitive l; rp ← ToPrimitive r; Normal (VBoolean (lt_prim lp rp)).

(** [l > r] is [r < l] with the operands still converted left to right. *)
Definition js_gt (l r : value) : completion value :=
  lp ← ToPrimitive l; rp ← ToPrimitive r; Normal (VBoolean (lt_prim rp lp)).

(** ** The validator (App.jsx, [validTransactions])

    The callback of the filter, conjunct by conjunct. *)
Definition validTransaction (tx : value) : completion value :=
  Normal tx
  &&& Normal (VBoolean (String.eqb (typeof tx) "object"))
  &&& (d ← Get tx description; Normal (VBoolean (negb (strict_eq_string d "Opening Balance"))))
  &&& (a ← Get tx amount; Normal (VBoolean (String.eqb (typeof a) "number")))
  &&& js_not (a ← Get tx amount; isNaN a)
  &&& Get tx date
  &&& Get tx description
  &&& Get tx category.

(** [Array.isArray(data) ? data.filter(...) : []] *)
Definition validTransactions (data : value) : completion (list value) :=
  match data with
  | VArray elems => filterM validTransaction elems
  | _ => Normal []
  end.

End Conversions.

(** ** The aggregation components *)

Record Summary : Type := {
  totalIncome : prim;
  totalExpenses : prim;
  netSavings : prim
}.

(** What reading a key of the accumulator object [{}] finds: an own entry,
  a function inherited from [Object.prototype], the prototype object itself
  (through the [__proto__] accessor), or nothing. *)
Inductive slot : Type :=
| SlotData (p : prim)
| SlotFunction (name : string)
| SlotPrototype.

Section Aggregation.
Context `{Host}.

(** *** DashboardMetrics.jsx *)

(** [tx => tx.amount > 0] *)
Definition isIncome (tx : value) : completion value :=
  a ← Get tx amount; js_gt a (VNumber zero).

(** [tx => tx.amount < 0] *)
Definition isExpense (tx : value) : completion value :=
  a ← Get tx amount; js_lt a (VNumber zero).

(** [(sum, tx) => sum + tx.amount] *)
Definition addAmount (sum : prim) (tx : value) : completion prim :=
  a ← Get tx amount; js_add sum a.

Definition DashboardMetrics (transactions : list value) : completion Summary :=
  income ← filterM isIncome transactions;
  totalIncome ← reduceM addAmount income (PNumber zero);
  expenses ← filterM isExpense transactions;
  totalExpenses ← reduceM addAmount expenses (PNumber zero);
  netSavings ← js_add totalIncome totalExpenses;
  Normal {| totalIncome := totalIncome;
            totalExpenses := totalExpenses;
            netSavings := netSavings |}.

(** *** CategoryPieChart.jsx

    The accumulator is an ordinary object used as a map from category to
    total.  Its own entries only ever hold results of [+]. *)

(** [acc[key]] *)
Definition acc_get (acc : gmap string prim) (key : string) : slot :=
  match acc !! key with
  | Some p => SlotData p
  | None =>
      if String.eqb key "__proto__" then SlotPrototype
      else if bool_decide (key ∈ ObjectPrototype_names) then SlotFunction key
      else SlotData PUndefined
  end.

(** [acc[key] = p] for a primitive [p].  The inherited [__proto__] setter
    ignores primitives; every other name becomes or updates an own entry. *)
Definition acc_set (acc : gmap string prim) (key : string) (p : prim) : gmap string prim :=
  match acc !! key with
  | Some _ => <[key := p]> acc
  | None => if String.eqb key "__proto__" then acc else <[key := p]> acc
  end.

Definition ToBoolean_slot (s : slot) : bool :=
  match s with
  | SlotData p => ToBoolean_prim p
  | SlotFunction _ | SlotPrototype => true
  end.

Definition ToPrimitive_slot (s : slot) : prim :=
  match s with
  | SlotData p => p
  | SlotFunction name => PString (FunctionToString name)
  | SlotPrototype => PString "[object Object]"
  end.

(** The reducer: one expense added to its bucket. *)
Definition addSpending (acc : gmap string prim) (tx : value) : completion (gmap string prim) :=
  category ← (Get tx category ||| Normal (VString "Other"));
  key ← ToPropertyKey category;
  let current := acc_get acc key in
  let left := if ToBoolean_slot current then current else SlotData (PNumber zero) in
  a ← Get tx amount;
  magnitude ← Math_abs a;
  Normal (acc_set acc key (add_prim (ToPrimitive_slot left) (PNumber magnitude))).

(** [tx => tx.amount < 0 && tx.description !== 'Opening Balance'] *)
Definition isSpending (tx : value) : completion value :=
  (a ← Get tx amount; js_lt a (VNumber zero))
  &&& (d ← Get tx description;
       Normal (VBoolean (negb (strict_eq_string d "Opening Balance")))).

Definition spendingByCategory (transactions : list value) : completion (gmap string prim) :=
  expenses ← filterM isSpending transactions;
  reduceM addSpending expenses ∅.

End Aggregation.

(** ** The session controller (App.jsx) *)

(** An opaque handle to a file chosen by the user. *)
Inductive File : Type := FileHandle (name : string).

(** The five [useState] cells; [null] and [undefined] read as [None]. *)
Record State : Type := {
  file : option File;
  password : string;
  transactions : list value;
  loading : bool;
  error : option string
}.

Definition initial : State :=
  {| file := None; password := ""; transactions := []; loading := false; error := None |}.

Definition setFile (f : option File) (s : State) : State :=
  {| file := f; password := password s; transactions := transactions s;
     loading := loading s; error := error s |}.
Definition setPassword (p : string) (s : State) : State :=
  {| file := file s; password := p; transactions := transactions s;
     loading := loading s; error := error s |}.
Definition setTransactions (t : list value) (s : State) : State :=
  {| file := file s; password := password s; transactions := t;
     loading := loading s; error := error s |}.
Definition setLoading (b : bool) (s : State) : State :=
  {| file := file s; password := password s; transactions := transactions s;
     loading := b; error := error s |}.
Definition setError (e : option string) (s : State) : State :=
  {| file := file s; password := password s; transactions := transactions s;
     loading := loading s; error := e |}.

(** What the transport hands back: a response, or the error object that
  [axios.post] rejects with. *)
Record Response : Type := {
  data : value;
  status : number
}.

Record AxiosError : Type := {
  cancelled : bool;              (* axios.isCancel(err) *)
  code : option string;          (* err.code *)
  response : option Response;    (* err.response *)
  request : bool;                (* err.request is set *)
  message : string               (* err.message *)
}.

Inductive outcome : Type :=
| Fulfilled (r : Response)
| Rejected (err : AxiosError).

(** The multipart form sent to the analyzer. *)
Record FormData : Type := {
  form_file : File;
  form_password : string
}.

(** What [handleSubmit] does up to the [await]: it returns without a
  request, or it issues one and waits. *)
Inductive submission : Type :=
| NotSent (s : State)
| Sent (pending : State) (form : FormData).

(** [handleFileChange]: [e.target.files[0]] is the head of the file list. *)
Definition handleFileChange (files : list File) (s : State) : State :=
  setError None (setTransactions [] (setFile (head files) s)).

Definition handleSubmit (s : State) : submission :=
  match file s with
  | None => NotSent (setError (Some "Please select a file first.") s)
  | Some f =>
    Sent (setTransactions [] (setError None (setLoading true s)))
         {| form_file := f; form_password := password s |}
  end.

Section Controller.
Context `{Host}.

(** [err.response.data?.detail] *)
Definition response_detail (r : Response) : value :=
  match data r with
  | VPrim PUndefined | VPrim PNull => VUndefined
  | d => match Get d detail with Normal v => v | Throw _ => VUndefined end
  end.

(** The message the [catch] block computes. *)
Definition errorMessage (err : AxiosError) : completion string :=
  if cancelled err then Normal "Request cancelled."
  else if bool_decide (code err = Some "ECONNABORTED") then
    Normal "The request timed out (90s). The file might be too large or the AI analysis is taking too long."
  else match response err with
  | Some r =>
      shown ← (Normal (response_detail r)
               ||| Normal (VString ("Server responded with status "
                                      +:+ NumberToString (status r))));
      text ← ToString shown;
      Normal ("Error: " +:+ text)
  | None =>
      if request err then
        Normal "Could not connect to the backend server. Please ensure it is running."
      else
        Normal ("An error occurred during the request setup: " +:+ message err)
  end.

(** The [try] body after the [await]. *)
Definition try_body (r : Response) (s : State) : completion State :=
  valid ← validTransactions (data r);
  Normal (if bool_decide (0 < length valid)%nat then
            setError None (setTransactions valid s)
          else
            setError (Some "Analysis complete, but no valid transactions were extracted from this file.")
              (setTransactions [] s)).

(** The [catch] block. *)
Definition catch_block (err : AxiosError) (s : State) : completion State :=
  msg ← errorMessage err;
  Normal (setTransactions [] (setError (Some msg) s)).

(** An exception of the [try] body as the [catch] block sees it: an error
    object with a message and none of the transport's fields. *)
Definition thrown (e : exn) : AxiosError :=
  match e with
  | TypeError msg =>
      {| cancelled := false; code := None; response := None; request := false;
         message := msg |}
  end.

(** The rest of [handleSubmit], from the [await] on: [try] body on a
    response, [catch] on a rejection or an exception, [finally] in every
    case.  The second component tells whether the handler itself ended with
    an exception. *)
Definition settle (o : outcome) (s : State) : State * completion unit :=
  let attempt :=
    match o with
    | Fulfilled r =>
        match try_body r s with
        | Normal s' => Normal s'
        | Throw e => catch_block (thrown e) s
        end
    | Rejected err => catch_block err s
    end in
  match attempt with
  | Normal s' => (setLoading false s', Normal tt)
  | Throw e => (setLoading false s, Throw e)
  end.

(** One whole submission against a transport: the final state and the
    requests that were sent. *)
Definition submit (transport : FormData -> outcome) (s : State) : State * list FormData :=
  match handleSubmit s with
  | NotSent s' => (s', [])
  | Sent pending form => (fst (settle (transport form) pending), [form])
  end.

End Controller.

(** ** A host for running examples

  Decimal conversions for integral doubles, enough to run the component on
  concrete inputs; other inputs are outside what the examples use. *)

Module SampleHost.

(** The integer a finite double holds when its exponent is not negative. *)
Definition integral (n : number) : option Z :=
  match n with
  | S754_zero _ => Some 0
  | S754_finite s m e =>
      let k := Z.shiftr (Z.pos m) (- e) in
      if (Z.shiftl k (- e) =? Z.pos m) && (e <=? 0)
      then Some (if s then - k else k) else None
  | _ => None
  end.

Definition number_to_string (n : number) : string :=
  match n with
  | S754_nan => "NaN"
  | S754_infinity false => "Infinity"
  | S754_infinity true => "-Infinity"
  | _ => match integral n with
         | Some z => pretty z
         | None => "?"
         end
  end.

Fixpoint digits (s : string) (acc : Z) : option Z :=
  match s with
  | EmptyString => Some acc
  | String c rest =>
      let d := Z.of_nat (Ascii.nat_of_ascii c) - 48 in
      if (0 <=? d) && (d <=? 9) then digits rest (10 * acc + d) else None
  end.

Definition string_to_number (s : string) : number :=
  match digits s 0 with
  | Some z => of_Z z
  | None => NaN
  end.

(** The argument is the property name the function is inherited under;
    [constructor] is the function named [Object]. *)
Definition function_to_string (name : string) : string :=
  "function " +:+ (if String.eqb name "constructor" then "Object" else name)
    +:+ "() { [native code] }".

Definition host : Host :=
  {| NumberToString := number_to_string;
     StringToNumber := string_to_number;
     FunctionToString := function_to_string |}.

End SampleHost.

(** A record with string fields and the given amount. *)
Definition record (d desc cat : string) (amt : number) : value :=
  VObject [("date", VString d); ("description", VString desc);
         ("category", VString cat); ("amount", VNumber amt)].

(** ** The admission checks as the specification words them *)

(** The value of a field, [undefined] when the element has no such field. *)
Definition field_value (tx : value) (f : field) : value :=
  match tx with
  | VObject props => default VUndefined (own_property props (field_name f))
  | _ => VUndefined
  end.

(** Check 1: a non-null structured record, not a primitive. *)
Definition is_structured (tx : value) : bool :=
  match tx with
  | VObject _ | VArray _ => true
  | VPrim _ => false
  end.

(** Check 2: the description is not the sentinel. *)
Definition not_sentinel (tx : value) : bool :=
  negb (strict_eq_string (field_value tx description) "Opening Balance").

(** Check 3 as the code makes it: a number that is not NaN. *)
Definition numeric_amount (tx : value) : bool :=
  match field_value tx amount with
  | VPrim (PNumber n) => negb (is_nan n)
  | _ => false
  end.

(** Check 3 as the specification words it: a finite number. *)
Definition finite_amount (tx : value) : bool :=
  match field_value tx amount with
  | VPrim (PNumber n) => is_finite n
  | _ => false
  end.

(** Checks 4 to 6: the field is truthy. *)
Definition truthy_field (tx : value) (f : field) : bool :=
  ToBoolean (field_value tx f).

Definition admitted (tx : value) : bool :=
  is_structured tx && not_sentinel tx && numeric_amount tx
  && truthy_field tx date && truthy_field tx description && truthy_field tx category.

Definition admitted_finite (tx : value) : bool :=
  is_structured tx && not_sentinel tx && finite_amount tx
  && truthy_field tx date && truthy_field tx description && truthy_field tx category.

(** ** The pipeline: what the dashboard shows for a response

    App.jsx stores [validTransactions] in [transactions] and hands that list
    to both components. *)

Section Pipeline.
Context `{Host}.

Definition summaryOf (data : value) : completion Summary :=
  valid ← validTransactions data; DashboardMetrics valid.

Definition categoryTotalsOf (data : value) : completion (gmap string prim) :=
  valid ← validTransactions data; spendingByCategory valid.

End Pipeline.

(** ** Sums as the specification words them *)

(** The amount of a record; only used on records whose amount is a number. *)
Definition amount_of (tx : value) : number :=
  match field_value tx amount with
  | VPrim (PNumber n) => n
  | _ => NaN
  end.

(** Left-to-right floating-point sum starting from 0. *)
Definition float_sum (l : list number) : number := fold_left add l zero.

Definition sum_of_positive (txs : list value) : number :=
  float_sum (List.filter (fun n => ltb zero n) (map amount_of txs)).

Definition sum_of_negative (txs : list value) : number :=
  float_sum (List.filter (fun n => ltb n zero) (map amount_of txs)).

Definition has_numeric_amount (tx : value) : Prop :=
  exists n, Get tx amount = Normal (VNumber n).

(** The bucket of a record: its category when that is a non-empty string,
    "Other" when the category is falsy.  [None] for a truthy category that is
    not a string. *)
Definition label_of (tx : value) : option string :=
  match field_value tx category with
  | VPrim (PString s) => Some (if String.eqb s "" then "Other" else s)
  | v => if ToBoolean v then None else Some "Other"
  end.

(** An expense that counts: amount below 0 and not the sentinel. *)
Definition counted_expense (tx : value) : bool :=
  ltb (amount_of tx) zero && not_sentinel tx.

(** The absolute amounts that fall into bucket [k], in input order. *)
Definition bucket (txs : list value) (k : string) : list number :=
  map (fun tx => abs (amount_of tx))
      (List.filter (fun tx => counted_expense tx && bool_decide (label_of tx = Some k)) txs).

(** The total of bucket [k]; a bucket without expenses is not in the mapping. *)
Definition category_total (txs : list value) (k : string) : option prim :=
  match bucket txs k with
  | [] => None
  | amounts => Some (PNumber (float_sum amounts))
  end.

(** A record the category chart is meant for: numeric amount, and a label
    that is not the name of an inherited member of the accumulator. *)
Definition plain_record (tx : value) : Prop :=
  is_structured tx = true
  /\ (exists n, field_value tx amount = VNumber n)
  /\ (exists k, label_of tx = Some k /\ k ∉ ObjectPrototype_names).

(** The running total an entry of the accumulator stands for. *)
Definition entry_total (o : option prim) : number :=
  match o with
  | Some (PNumber n) => n
  | _ => zero
  end.

(** An entry after further amounts have been added to it, in order. *)
Definition extend_entry (o : option prim) (amounts : list number) : option prim :=
  match amounts with
  | [] => o
  | _ => Some (PNumber (fold_left add amounts (entry_total o)))
  end.

(** Every entry of the accumulator is a number without sign. *)
Definition signless_totals (acc : gmap string prim) : Prop :=
  map_Forall (fun _ p => exists n, p = PNumber n /\ signless n = true) acc.

(** The absolute amounts of the records of [l] labelled [k]. *)
Definition amounts_for (l : list value) (k : string) : list number :=
  map (fun tx => abs (amount_of tx))
      (List.filter (fun tx => bool_decide (label_of tx = Some k)) l).

(** [yields c b]: the expression completes normally with a value of
    truthiness [b]. *)
Definition yields (c : completion value) (b : bool) : Prop :=
  exists v, c = Normal v /\ ToBoolean v = b.

(** ** Example data *)

Definition salary : value := record "2024-01-01" "Salary" "Income" (of_Z 50000).
Definition opening : value := record "2024-01-02" "Opening Balance" "Other" (of_Z 10000).
Definition groceries : value := record "2024-01-03" "Groceries" "Food" (of_Z (-1500)).
Definition freebie : value := record "2024-01-04" "Voucher" "Gifts" zero.
Definition windfall : value := record "2024-01-05" "Refund" "Income" Infinity.
Definition writeoff : value := record "2024-01-06" "Write-off" "Fees" NegInfinity.
Definition mislabeled : value := record "2024-01-03" "Groceries" "toString" (of_Z (-1500)).
Definition proto_labeled : value := record "2024-01-07" "Taxi" "__proto__" (of_Z (-300)).

Definition statement : File := FileHandle "statement.pdf".
Definition ready : State := setFile (Some statement) initial.
Definition waiting : State := setTransactions [] (setError None (setLoading true ready)).

(** A transport that always reports a refused connection. *)
Definition unreachable (form : FormData) : outcome :=
  Rejected {| cancelled := false; code := Some "ERR_NETWORK"; response := None;
              request := true; message := "Network Error" |}.

(** A server-reported failure with the given status and body. *)
Definition server_failure (st : Z) (body : value) : AxiosError :=
  {| cancelled := false; code := Some "ERR_BAD_REQUEST";
     response := Some {| data := body; status := of_Z st |};
     request := true; message := "Request failed" |}.

(** ** What the components render

    The conditions under which App.jsx shows its parts, the class of the
    net-savings tile of DashboardMetrics.jsx, and the test CategoryPieChart.jsx
    makes before it draws. *)

(** [error] used as a condition: a message other than the empty string. *)
Definition error_truthy (s : State) : bool :=
  match error s with
  | Some m => negb (String.eqb m "")
  | None => false
  end.

(** [disabled={loading || !file}] on the submit button. *)
Definition submitDisabled (s : State) : bool :=
  loading s || match file s with Some _ => false | None => true end.

(** [error && !loading && transactions.length === 0]: the error banner. *)
Definition showError (s : State) : bool :=
  error_truthy s && negb (loading s) && Nat.eqb (length (transactions s)) 0.

(** [loading]: the progress indicator. *)
Definition showLoading (s : State) : bool := loading s.

(** [!loading && transactions.length > 0]: metrics, chart and table. *)
Definition showDashboard (s : State) : bool :=
  negb (loading s) && Nat.ltb 0 (length (transactions s)).

Section Rendering.
Context `{Host}.

(** [l >= r] on primitives: false when [l < r] or when the comparison is
    undefined (a NaN operand). *)
Definition ge_prim (l r : prim) : bool :=
  match l, r with
  | PString s, PString t => negb (String.ltb s t)
  | _, _ => leb (ToNumber_prim r) (ToNumber_prim l)
  end.

(** [netSavings >= 0 ? 'text-cyan-400' : 'text-orange-400'] *)
Definition netSavingsClass (summary : Summary) : string :=
  if ge_prim (netSavings summary) (PNumber zero) then "text-cyan-400" else "text-orange-400".

(** [labels.length === 0], with [labels = Object.keys(spendingByCategory)]:
    the chart is replaced by the "No spending data" notice. *)
Definition noSpendingData (totals : gmap string prim) : bool :=
  Nat.eqb (size totals) 0.

(** The property key the reducer files a record under:
    [acc[tx.category || 'Other']]. *)
Definition key_of (tx : value) : completion string :=
  category ← (Get tx category ||| Normal (VString "Other")); ToPropertyKey category.

End Rendering.

(** ** The shape of a validated record *)

(** An object with the four fields as own properties: truthy date,
    description and category, and a number for the amount. *)
Definition has_all_fields (tx : value) : Prop :=
  exists props d desc c n,
    tx = VObject props
    /\ own_property props "date" = Some d /\ ToBoolean d = true
    /\ own_property props "description" = Some desc /\ ToBoolean desc = true
    /\ own_property props "category" = Some c /\ ToBoolean c = true
    /\ own_property props "amount" = Some (VNumber n).

(** The state a fulfilled request leaves behind. *)
Definition after_success (s : State) (valid : list value) : State :=
  {| file := file s; password := password s; transactions := valid; loading := false;
     error := match valid with
              | [] => Some "Analysis complete, but no valid transactions were extracted from this file."
              | _ => None
              end |}.

(** The error object of a request that got no response. *)
Definition network_down : AxiosError :=
  {| cancelled := false; code := Some "ERR_NETWORK"; response := None;
     request := true; message := "Network Error" |}.

(** ** Sessions as sequences of events *)

(** One user action carried through: a file selection, a keystroke in the
    password field, or a submission together with what the transport answers
    if a request is sent. *)
Inductive event : Type :=
| SelectFile (files : list File)
| TypePassword (p : string)
| Submit (o : outcome).

(** The same actions when a request may still be in flight: a submission
    only runs up to the [await], and a settlement arrives on its own. *)
Inductive action : Type :=
| Select (files : list File)
| Type_ (p : string)
| Start
| Finish (o : outcome).

Section Sessions.
Context `{Host}.

Definition step (s : State) (e : event) : State :=
  match e with
  | SelectFile files => handleFileChange files s
  | TypePassword p => setPassword p s
  | Submit o => fst (submit (fun _ => o) s)
  end.

Definition run (s : State) (events : list event) : State := fold_left step events s.

(** [Finish] applies the rest of a handler to the state as it is then; the
    setters it calls write whole cells, so this is what a late settlement
    does. *)
Definition act (s : State) (a : action) : State :=
  match a with
  | Select files => handleFileChange files s
  | Type_ p => setPassword p s
  | Start => match handleSubmit s with NotSent s' => s' | Sent pending _ => pending end
  | Finish o => fst (settle o s)
  end.

Definition interleave (s : State) (actions : list action) : State := fold_left act actions s.

End Sessions.

(** What holds of the state between events when every submission is carried
    through before the next event. *)
Definition settled (s : State) : Prop :=
  loading s = false
  /\ Forall (fun tx => admitted tx = true) (transactions s)
  /\ (transactions s <> [] -> error s = None /\ file s <> None)
  /\ (forall m, error s = Some m -> m <> "").

(** ** Signs of doubles *)

(** Not NaN, with the given sign bit. *)
Definition has_sign (sx : bool) (x : number) : bool :=
  match x with
  | S754_nan => false
  | S754_zero s | S754_infinity s | S754_finite s _ _ => Bool.eqb s sx
  end.

(** What a sum of negative amounts started from 0 can be: 0 itself or a
    number with the sign bit set. *)
Definition debit_total (x : number) : Prop := x = zero \/ has_sign true x = true.

(** A finite double never has an exponent below the smallest one of the
    format, [emin] = -1074; every number [JSON.parse] produces is of this
    kind. *)
Definition grounded (x : number) : bool :=
  match x with
  | S754_finite _ _ e => 3 - emax - prec <=? e
  | _ => true
  end.

(** A record whose amount is such a number. *)
Definition has_grounded_amount (tx : value) : Prop :=
  exists n, Get tx amount = Normal (VNumber n) /\ grounded n = true.

(** A further record for the examples: an expense whose category is an
    object that cannot be converted to a property key. *)
Definition unkeyable : value :=
  VObject [("date", VString "2024-01-09"); ("description", VString "Fee");
           ("category", VObject [("toString", VNumber (of_Z 1))]);
           ("amount", VNumber (of_Z (-10)))].

(** * Properties *)

(** ** Doubles: sums of numbers without sign stay without sign *)

Lemma iter_pos_invariant {A : Type} (f : A -> A) (P : A -> Prop) :
  (forall x, P x -> P (f x)) -> forall n x, P x -> P (SpecFloat.iter_pos f n x).
Proof.
  intros Hf. induction n as [n IH|n IH|]; intros x Hx; simpl; auto.
Qed.

Lemma shr_1_nonneg (mrs : shr_record) : 0 <= shr_m mrs -> 0 <= shr_m (shr_1 mrs).
Proof.
  destruct mrs as [m r s]. simpl. intros Hm.
  destruct m as [|[p|p|]|[p|p|]]; simpl; lia.
Qed.

Lemma shr_nonneg (mrs : shr_record) (e n : Z) :
  0 <= shr_m mrs -> 0 <= shr_m (fst (shr mrs e n)).
Proof.
  intros Hm. destruct n as [|p|p]; simpl; try exact Hm.
  apply (iter_pos_invariant shr_1 (fun x => 0 <= shr_m x)); [apply shr_1_nonneg|exact Hm].
Qed.

Lemma shr_fexp_nonneg (m e : Z) (l : location) :
  0 <= m -> 0 <= shr_m (fst (shr_fexp prec emax m e l)).
Proof.
  intros Hm. unfold shr_fexp. apply shr_nonneg.
  destruct l as [|[]]; exact Hm.
Qed.

Lemma round_nearest_even_nonneg (m : Z) (l : location) :
  0 <= m -> 0 <= round_nearest_even m l.
Proof.
  intros Hm. destruct l as [|[]]; simpl; try lia.
  destruct (Z.even m); lia.
Qed.

Lemma binary_round_aux_signless (m e : Z) (l : location) :
  0 <= m -> signless (binary_round_aux prec emax false m e l) = true.
Proof.
  intros Hm. unfold binary_round_aux.
  pose proof (shr_fexp_nonneg m e l Hm) as H1.
  destruct (shr_fexp prec emax m e l) as [mrs' e'].
  simpl in H1.
  pose proof (shr_fexp_nonneg _ e' loc_Exact
                (round_nearest_even_nonneg _ (loc_of_shr_record mrs') H1)) as H2.
  destruct (shr_fexp prec emax _ e' loc_Exact) as [mrs'' e''].
  simpl in H2.
  destruct (shr_m mrs'') as [|p|p]; [reflexivity| |lia].
  destruct (e'' <=? emax - prec); reflexivity.
Qed.

Lemma add_signless (x y : number) :
  signless x = true -> signless y = true -> signless (add x y) = true.
Proof.
  destruct x as [[]|[]| |[] mx ex], y as [[]|[]| |[] my ey]; try discriminate;
    intros _ _; try reflexivity.
  unfold add, SFadd. cbn [cond_Zopp].
  change (Z.pos ?a + Z.pos ?b) with (Z.pos (a + b)).
  unfold binary_normalize, binary_round.
  destruct (shl_align _ _ _) as [mz ez].
  apply binary_round_aux_signless. lia.
Qed.

Lemma signless_nonneg (x : number) : signless x = true -> leb zero x = true.
Proof. destruct x as [[]|[]| |[] m e]; try discriminate; reflexivity. Qed.

Lemma signless_falsy (x : number) :
  signless x = true -> is_zero x || is_nan x = true -> x = zero.
Proof. destruct x as [[]|[]| |[] m e]; try discriminate; reflexivity. Qed.

Lemma abs_of_negative (x : number) : ltb x zero = true -> signless (abs x) = true.
Proof. destruct x as [[]|[]| |[] m e]; try discriminate; reflexivity. Qed.

(** ** Lists and [filterM] *)

Lemma filter_idempotent {A : Type} (p : A -> bool) (l : list A) :
  List.filter p (List.filter p l) = List.filter p l.
Proof.
  induction l as [|x l IH]; simpl; [reflexivity|].
  destruct (p x) eqn:E; simpl; rewrite ?E, IH; reflexivity.
Qed.

Lemma filter_sublist {A : Type} (p : A -> bool) (l : list A) :
  sublist (List.filter p l) l.
Proof.
  induction l as [|x l IH]; simpl; [constructor|].
  destruct (p x); constructor; assumption.
Qed.

Lemma filter_map_comm {A B : Type} (g : A -> B) (p : B -> bool) (l : list A) :
  map g (List.filter (fun x => p (g x)) l) = List.filter p (map g l).
Proof.
  induction l as [|x l IH]; simpl; [reflexivity|].
  destruct (p (g x)); simpl; rewrite IH; reflexivity.
Qed.

Lemma Forall_filter_keeps {A : Type} (P : A -> Prop) (p : A -> bool) (l : list A) :
  Forall P l -> Forall P (List.filter p l).
Proof.
  induction 1 as [|x l Hx _ IH]; simpl; [constructor|].
  destruct (p x); [constructor|]; assumption.
Qed.

(** Where the callback never throws, [filterM] is the ordinary filter. *)
Lemma filterM_Forall {A : Type} (f : A -> completion value) (p : A -> bool) (l : list A) :
  Forall (fun x => yields (f x) (p x)) l ->
  filterM f l = Normal (List.filter p l).
Proof.
  induction 1 as [|x l (b & Hx & Hb) _ IH]; simpl; [reflexivity|].
  rewrite Hx. simpl. rewrite IH. simpl. rewrite Hb. reflexivity.
Qed.

Lemma filterM_total {A : Type} (f : A -> completion value) (p : A -> bool) (l : list A) :
  (forall x, yields (f x) (p x)) -> filterM f l = Normal (List.filter p l).
Proof.
  intros Hf. apply filterM_Forall. apply List.Forall_forall. intros x _. apply Hf.
Qed.

(** A rejected element can be removed without changing the outcome, also
    when another element makes the traversal throw. *)
Lemma filterM_skip {A : Type} (f : A -> completion value) (l1 l2 : list A) (x : A) (b : value) :
  f x = Normal b -> ToBoolean b = false ->
  filterM f (l1 ++ x :: l2) = filterM f (l1 ++ l2).
Proof.
  intros Hx Hb. induction l1 as [|y l1 IH]; simpl.
  - rewrite Hx. simpl. destruct (filterM f l2); simpl; [rewrite Hb|]; reflexivity.
  - rewrite IH. reflexivity.
Qed.

Lemma yields_and (a b : completion value) (ba bb : bool) :
  yields a ba -> (ba = true -> yields b bb) -> yields (a &&& b) (ba && bb).
Proof.
  intros (va & -> & Ha) Hb. unfold js_and. simpl. rewrite Ha.
  destruct ba; simpl.
  - apply Hb. reflexivity.
  - exists va. split; [reflexivity|assumption].
Qed.

Lemma yields_bool (b : bool) : yields (Normal (VBoolean b)) b.
Proof. exists (VBoolean b). split; reflexivity. Qed.

(** ** Property reads *)

(** None of the names the source reads is inherited from the prototype. *)
Lemma field_not_inherited (f : field) : field_name f ∉ ObjectPrototype_names.
Proof.
  intros Hin. apply list_elem_of_In in Hin.
  destruct f; simpl in Hin; intuition discriminate.
Qed.

Lemma Get_structured (tx : value) (f : field) :
  is_structured tx = true -> Get tx f = Normal (field_value tx f).
Proof. destruct tx as [p| |]; simpl; [discriminate|reflexivity|reflexivity]. Qed.

Lemma Get_field_value (tx : value) (f : field) (p : prim) :
  p <> PUndefined -> Get tx f = Normal (VPrim p) -> field_value tx f = VPrim p.
Proof.
  intros Hp. destruct tx as [[| |b|n|s]|props|elems]; simpl; try discriminate;
    try (intros [= E]; congruence).
Qed.

(** ** The validator's callback *)

Section ValidatorFacts.
Context `{Host}.

Lemma structured_guard (tx : value) :
  yields (Normal tx &&& Normal (VBoolean (String.eqb (typeof tx) "object")))
         (is_structured tx).
Proof.
  destruct tx as [p| |]; unfold js_and; simpl;
    try (eexists; split; reflexivity).
  destruct (ToBoolean_prim p) eqn:E.
  - exists (VBoolean (String.eqb (typeof p) "object")). split; [reflexivity|].
    destruct p as [| |[]| |]; try reflexivity; simpl in E; discriminate.
  - exists p. split; [reflexivity|exact E].
Qed.

(** The callback never throws, and its result is truthy exactly on the
    elements passing the six checks. *)
Lemma validTransaction_admitted (tx : value) :
  yields (validTransaction tx) (admitted tx).
Proof.
  assert (Hnum : numeric_amount tx =
                 String.eqb (typeof (field_value tx amount)) "number"
                 && negb (match field_value tx amount with
                          | VPrim (PNumber n) => is_nan n
                          | _ => false
                          end)).
  { unfold numeric_amount.
    destruct (field_value tx amount) as [[| |[]|n|s]| |]; reflexivity. }
  unfold admitted. rewrite Hnum, !andb_assoc.
  unfold validTransaction.
  repeat (apply yields_and; [|intros Hg]).
  - apply structured_guard.
  - rewrite Get_structured by assumption. apply yields_bool.
  - apply andb_prop in Hg as [Hs _].
    rewrite Get_structured by assumption. apply yields_bool.
  - apply andb_prop in Hg as [Hg Ht]. apply andb_prop in Hg as [Hs _].
    rewrite Get_structured by assumption.
    destruct (field_value tx amount) as [[| |[]|n|s]| |]; try discriminate.
    apply yields_bool.
  - repeat (apply andb_prop in Hg as [Hg _]).
    rewrite Get_structured by assumption. eexists; split; reflexivity.
  - repeat (apply andb_prop in Hg as [Hg _]).
    rewrite Get_structured by assumption. eexists; split; reflexivity.
  - repeat (apply andb_prop in Hg as [Hg _]).
    rewrite Get_structured by assumption. eexists; split; reflexivity.
Qed.

(** The validator is total and computes the filter by [admitted]. *)
Lemma validTransactions_filter (data : value) :
  validTransactions data =
  Normal (match data with
          | VArray elems => List.filter admitted elems
          | _ => []
          end).
Proof.
  destruct data as [p|props|elems]; try reflexivity.
  apply filterM_total. intros tx. apply validTransaction_admitted.
Qed.

End ValidatorFacts.

(** Every element the validator lets through is a record whose amount is a
    number that is not NaN. *)
Lemma admitted_amount (tx : value) :
  admitted tx = true ->
  exists n, Get tx amount = Normal (VNumber n) /\ is_nan n = false.
Proof.
  unfold admitted. rewrite !andb_true_iff.
  intros [[[[[Hs _] Hn] _] _] _].
  rewrite (Get_structured _ _ Hs). unfold numeric_amount in Hn.
  destruct (field_value tx amount) as [[| |b|n|s]|props|elems]; try discriminate.
  exists n. split; [reflexivity|]. apply negb_true_iff. exact Hn.
Qed.

Lemma sentinel_not_admitted (r : value) :
  Get r description = Normal (VString "Opening Balance") -> admitted r = false.
Proof.
  intros Hr. apply Get_field_value in Hr; [|discriminate].
  unfold admitted, not_sentinel. rewrite Hr. simpl.
  rewrite andb_false_r. reflexivity.
Qed.

(** ** DashboardMetrics *)

Section AggregationFacts.
Context `{Host}.

Lemma amount_of_numeric (tx : value) (n : number) :
  Get tx amount = Normal (VNumber n) -> amount_of tx = n.
Proof.
  unfold amount_of. destruct tx as [[| |b|m|s]|props|elems]; simpl; try discriminate.
  intros [= ->]. reflexivity.
Qed.

(** On a numeric amount the sign tests are comparisons of doubles. *)
Lemma isIncome_number (tx : value) (n : number) :
  Get tx amount = Normal (VNumber n) -> isIncome tx = Normal (VBoolean (ltb zero n)).
Proof. intros Hn. unfold isIncome. rewrite Hn. reflexivity. Qed.

Lemma isExpense_number (tx : value) (n : number) :
  Get tx amount = Normal (VNumber n) -> isExpense tx = Normal (VBoolean (ltb n zero)).
Proof. intros Hn. unfold isExpense. rewrite Hn. reflexivity. Qed.

Lemma income_filter (txs : list value) :
  Forall has_numeric_amount txs ->
  filterM isIncome txs = Normal (List.filter (fun tx => ltb zero (amount_of tx)) txs).
Proof.
  intros Hall. apply filterM_Forall.
  eapply Forall_impl; [exact Hall|]. intros tx [n Hn].
  rewrite (amount_of_numeric _ _ Hn), (isIncome_number _ _ Hn). apply yields_bool.
Qed.

Lemma expense_filter (txs : list value) :
  Forall has_numeric_amount txs ->
  filterM isExpense txs = Normal (List.filter (fun tx => ltb (amount_of tx) zero) txs).
Proof.
  intros Hall. apply filterM_Forall.
  eapply Forall_impl; [exact Hall|]. intros tx [n Hn].
  rewrite (amount_of_numeric _ _ Hn), (isExpense_number _ _ Hn). apply yields_bool.
Qed.

(** ... and the reducer is floating-point addition. *)
Lemma addAmount_number (tx : value) (start n : number) :
  Get tx amount = Normal (VNumber n) ->
  addAmount (PNumber start) tx = Normal (PNumber (add start n)).
Proof. intros Hn. unfold addAmount. rewrite Hn. reflexivity. Qed.

Lemma reduce_amounts (txs : list value) (start : number) :
  Forall has_numeric_amount txs ->
  reduceM addAmount txs (PNumber start)
  = Normal (PNumber (fold_left add (map amount_of txs) start)).
Proof.
  intros Hall. revert start.
  induction Hall as [|tx txs [n Hn] _ IH]; intros start;
    cbn [reduceM map fold_left]; [reflexivity|].
  rewrite (addAmount_number _ _ _ Hn), (amount_of_numeric _ _ Hn). apply IH.
Qed.

Lemma DashboardMetrics_numeric (txs : list value) :
  Forall has_numeric_amount txs ->
  DashboardMetrics txs =
  Normal {| totalIncome := PNumber (sum_of_positive txs);
            totalExpenses := PNumber (sum_of_negative txs);
            netSavings := PNumber (add (sum_of_positive txs) (sum_of_negative txs)) |}.
Proof.
  intros Hall. unfold DashboardMetrics, sum_of_positive, sum_of_negative, float_sum.
  rewrite (income_filter _ Hall), (expense_filter _ Hall). simpl.
  rewrite !reduce_amounts by (apply Forall_filter_keeps; exact Hall).
  simpl.
  rewrite (filter_map_comm amount_of (fun n => ltb zero n)).
  rewrite (filter_map_comm amount_of (fun n => ltb n zero)).
  reflexivity.
Qed.

(** A record is dropped from both sums when both sign tests fail on it. *)
Lemma DashboardMetrics_skip (a b : list value) (r : value) (n : number) :
  Get r amount = Normal (VNumber n) -> ltb zero n = false -> ltb n zero = false ->
  DashboardMetrics (a ++ r :: b) = DashboardMetrics (a ++ b).
Proof.
  intros Hr Hpos Hneg. unfold DashboardMetrics.
  rewrite (filterM_skip isIncome a b r (VBoolean false));
    [|rewrite (isIncome_number _ _ Hr), Hpos; reflexivity|reflexivity].
  rewrite (filterM_skip isExpense a b r (VBoolean false));
    [|rewrite (isExpense_number _ _ Hr), Hneg; reflexivity|reflexivity].
  reflexivity.
Qed.

(** A record is dropped from the category totals when the expense test
    fails on it. *)
Lemma spendingByCategory_skip (a b : list value) (r : value) (n : number) :
  Get r amount = Normal (VNumber n) -> ltb n zero = false ->
  spendingByCategory (a ++ r :: b) = spendingByCategory (a ++ b).
Proof.
  intros Hr Hneg. unfold spendingByCategory.
  rewrite (filterM_skip isSpending a b r (VBoolean false)); [reflexivity| |reflexivity].
  unfold isSpending. fold (isExpense r).
  rewrite (isExpense_number _ _ Hr), Hneg. reflexivity.
Qed.

End AggregationFacts.

(** ** The category chart on plain records *)

Section CategoryFacts.
Context `{Host}.

Lemma plain_amount (tx : value) :
  plain_record tx -> Get tx amount = Normal (VNumber (amount_of tx)).
Proof.
  intros (Hs & [n Hn] & _). rewrite (Get_structured _ _ Hs).
  unfold amount_of. rewrite Hn. reflexivity.
Qed.

(** The key the reducer computes is the label. *)
Lemma plain_key (tx : value) (k : string) :
  is_structured tx = true -> label_of tx = Some k ->
  (category ← (Get tx category ||| Normal (VString "Other")); ToPropertyKey category)
  = Normal k.
Proof.
  intros Hs. rewrite (Get_structured _ _ Hs). unfold label_of, js_or.
  destruct (field_value tx category) as [[| |[]|n|s]|props|elems]; simpl;
    try discriminate; try (intros [= <-]; reflexivity).
  - destruct (is_zero n || is_nan n); simpl; [|discriminate].
    intros [= <-]. reflexivity.
  - destruct (String.eqb s ""); simpl; intros [= <-]; reflexivity.
Qed.

(** The filter's test on a plain record. *)
Lemma isSpending_plain (tx : value) :
  plain_record tx -> yields (isSpending tx) (counted_expense tx).
Proof.
  intros Hp. destruct (Hp) as (Hs & _ & _).
  unfold isSpending, counted_expense. fold (isExpense tx).
  rewrite (isExpense_number _ _ (plain_amount _ Hp)).
  apply yields_and; [apply yields_bool|]. intros _.
  rewrite (Get_structured _ _ Hs). apply yields_bool.
Qed.

Lemma inherited_names_proto (k : string) :
  k ∉ ObjectPrototype_names -> String.eqb k "__proto__" = false.
Proof.
  intros Hk. apply String.eqb_neq. intros ->. apply Hk.
  apply list_elem_of_In. simpl. tauto.
Qed.

(** Reading a plain key of an accumulator whose entries are numbers without
    sign gives the running total, 0 for a new key. *)
Lemma acc_get_plain (acc : gmap string prim) (k : string) :
  signless_totals acc -> k ∉ ObjectPrototype_names ->
  let current := acc_get acc k in
  ToPrimitive_slot (if ToBoolean_slot current then current else SlotData (PNumber zero))
  = PNumber (entry_total (acc !! k))
  /\ signless (entry_total (acc !! k)) = true.
Proof.
  intros Hinv Hk. unfold acc_get.
  destruct (acc !! k) as [p|] eqn:E.
  - destruct (Hinv k p E) as (n & -> & Hn). simpl.
    split; [|exact Hn].
    destruct (is_zero n || is_nan n) eqn:Ez; simpl; [|reflexivity].
    rewrite (signless_falsy n Hn Ez). reflexivity.
  - rewrite (inherited_names_proto k Hk).
    rewrite bool_decide_eq_false_2 by exact Hk. simpl. split; reflexivity.
Qed.

Lemma acc_set_plain (acc : gmap string prim) (k : string) (p : prim) :
  k ∉ ObjectPrototype_names -> acc_set acc k p = <[k := p]> acc.
Proof.
  intros Hk. unfold acc_set. rewrite (inherited_names_proto k Hk).
  destruct (acc !! k); reflexivity.
Qed.

(** One step of the reducer on a plain expense. *)
Lemma addSpending_plain (acc : gmap string prim) (tx : value) (k : string) :
  signless_totals acc ->
  plain_record tx -> label_of tx = Some k -> k ∉ ObjectPrototype_names ->
  addSpending acc tx
  = Normal (<[k := PNumber (add (entry_total (acc !! k)) (abs (amount_of tx)))]> acc).
Proof.
  intros Hinv Hp Hl Hk. destruct (Hp) as (Hs & _ & _).
  pose proof (plain_key tx k Hs Hl) as Hkey.
  unfold addSpending.
  destruct (Get tx category ||| Normal (VString "Other")) as [c|e]; [|discriminate].
  simpl in Hkey |- *. rewrite Hkey. simpl.
  rewrite (plain_amount _ Hp). simpl.
  destruct (acc_get_plain acc k Hinv Hk) as [-> _].
  rewrite (acc_set_plain _ _ _ Hk). reflexivity.
Qed.

Lemma extend_entry_cons (o : option prim) (x : number) (l : list number) :
  extend_entry o (x :: l) = extend_entry (Some (PNumber (add (entry_total o) x))) l.
Proof. destruct l; reflexivity. Qed.

(** The whole reduction over plain expenses, from any accumulator. *)
Lemma reduce_plain (l : list value) (acc : gmap string prim) :
  signless_totals acc ->
  Forall (fun tx => plain_record tx /\ counted_expense tx = true) l ->
  exists totals,
    reduceM addSpending l acc = Normal totals
    /\ signless_totals totals
    /\ forall k, totals !! k = extend_entry (acc !! k) (amounts_for l k).
Proof.
  intros Hinv Hall. revert acc Hinv.
  induction Hall as [|tx l [Hp Hc] _ IH]; intros acc Hinv.
  - exists acc. split; [reflexivity|]. split; [exact Hinv|]. intros k. reflexivity.
  - destruct (Hp) as (_ & _ & (s & Hl & Hs)).
    cbn [reduceM]. rewrite (addSpending_plain acc tx s Hinv Hp Hl Hs). simpl.
    set (acc1 := <[s := PNumber (add (entry_total (acc !! s)) (abs (amount_of tx)))]> acc).
    assert (Hinv1 : signless_totals acc1).
    { apply map_Forall_insert_2; [|exact Hinv].
      eexists. split; [reflexivity|].
      apply add_signless.
      - destruct (acc !! s) as [p|] eqn:E; [|reflexivity].
        destruct (Hinv s p E) as (n & -> & Hn). exact Hn.
      - apply abs_of_negative. unfold counted_expense in Hc.
        apply andb_prop in Hc as [Hc _]. exact Hc. }
    destruct (IH acc1 Hinv1) as (totals & Hred & Hinv' & Hlook).
    exists totals. split; [exact Hred|]. split; [exact Hinv'|].
    intros k. rewrite Hlook. unfold amounts_for. cbn [List.filter].
    destruct (decide (s = k)) as [->|Hne].
    + rewrite Hl. rewrite bool_decide_eq_true_2 by reflexivity.
      cbn [map]. rewrite extend_entry_cons. subst acc1.
      rewrite lookup_insert_eq. reflexivity.
    + rewrite Hl. rewrite bool_decide_eq_false_2 by congruence.
      subst acc1. rewrite lookup_insert_ne by exact Hne. reflexivity.
Qed.

Lemma filter_filter_andb {A : Type} (p q : A -> bool) (l : list A) :
  List.filter q (List.filter p l) = List.filter (fun x => p x && q x) l.
Proof.
  induction l as [|x l IH]; simpl; [reflexivity|].
  destruct (p x); simpl; [destruct (q x)|]; rewrite IH; reflexivity.
Qed.

(** On plain records the chart computes, per label, the sum of the absolute
    values of the counted expenses, and every total is a number that is at
    least 0. *)
Lemma spendingByCategory_plain (txs : list value) :
  Forall plain_record txs ->
  exists totals,
    spendingByCategory txs = Normal totals
    /\ (forall k, totals !! k = category_total txs k)
    /\ map_Forall (fun _ p => exists n, p = PNumber n /\ leb zero n = true) totals.
Proof.
  intros Hall. unfold spendingByCategory.
  rewrite (filterM_Forall isSpending counted_expense).
  2:{ eapply Forall_impl; [exact Hall|]. intros tx. apply isSpending_plain. }
  simpl.
  destruct (reduce_plain (List.filter counted_expense txs) ∅) as (totals & Hred & Hinv & Hlook).
  { intros k p Hk. rewrite lookup_empty in Hk. discriminate. }
  { apply List.Forall_forall. intros tx Hin. apply List.filter_In in Hin as [Hin Hc].
    split; [|exact Hc]. rewrite List.Forall_forall in Hall. apply Hall. exact Hin. }
  exists totals. split; [exact Hred|]. split.
  - intros k. rewrite Hlook, lookup_empty. unfold amounts_for, category_total, bucket.
    rewrite filter_filter_andb.
    destruct (map _ _); reflexivity.
  - intros k p Hk. destruct (Hinv k p Hk) as (n & -> & Hn).
    exists n. split; [reflexivity|]. apply signless_nonneg. exact Hn.
Qed.

End CategoryFacts.

(** ** The scenarios of the specification, run on the model *)

Example scenario_A :
  @validTransactions SampleHost.host (VArray [salary]) = Normal [salary]
  /\ @DashboardMetrics SampleHost.host [salary]
     = Normal {| totalIncome := PNumber (of_Z 50000);
                 totalExpenses := PNumber zero;
                 netSavings := PNumber (of_Z 50000) |}
  /\ @spendingByCategory SampleHost.host [salary] = Normal ∅.
Proof. repeat split; reflexivity. Qed.

Example scenario_B :
  @validTransactions SampleHost.host (VArray [opening; groceries]) = Normal [groceries]
  /\ @DashboardMetrics SampleHost.host [groceries]
     = Normal {| totalIncome := PNumber zero;
                 totalExpenses := PNumber (of_Z (-1500));
                 netSavings := PNumber (of_Z (-1500)) |}
  /\ @spendingByCategory SampleHost.host [groceries]
     = Normal {[ "Food" := PNumber (of_Z 1500) ]}.
Proof. repeat split; reflexivity. Qed.

Example scenario_C :
  @validTransactions SampleHost.host (VString "not an array") = Normal []
  /\ @validTransactions SampleHost.host VNull = Normal []
  /\ @settle SampleHost.host (Fulfilled {| data := VNull; status := of_Z 200 |}) waiting
     = (setLoading false
          (setError (Some "Analysis complete, but no valid transactions were extracted from this file.")
             waiting),
        Normal tt).
Proof. repeat split; reflexivity. Qed.

(** A record without [amount], with a string or with NaN for it, is dropped
    and its well-formed neighbours are kept. *)
Example scenario_D :
  @validTransactions SampleHost.host
    (VArray [ salary;
              VObject [("date", VString "2024-01-08"); ("description", VString "Rent");
                       ("category", VString "Housing")];
              VObject [("date", VString "2024-01-08"); ("description", VString "Rent");
                       ("category", VString "Housing"); ("amount", VString "abc")];
              record "2024-01-08" "Rent" "Housing" NaN;
              groceries ])
  = Normal [salary; groceries].
Proof. reflexivity. Qed.

(** * The claims *)

(** ** The validator *)

(** C1, as stated, fails: a record whose amount is +Infinity (what
    [JSON.parse] makes of a literal such as 1e999) passes the filter, because
    the filter tests [typeof] and [isNaN] and nothing else about the amount. *)
Lemma validator_admits_infinity :
  @validTransactions SampleHost.host (VArray [salary; windfall]) = Normal [salary; windfall]
  /\ Get windfall amount = Normal (VNumber Infinity)
  /\ is_finite Infinity = false.
Proof. repeat split; reflexivity. Qed.

(** C1, amended: for every input, the validator returns, and every element
    of its output has an [amount] that is a number and is not NaN. *)
Theorem validated_amount_is_a_number `{Host} (data : value) :
  exists valid,
    validTransactions data = Normal valid
    /\ Forall (fun tx => exists n, Get tx amount = Normal (VNumber n) /\ is_nan n = false)
              valid.
Proof.
  rewrite validTransactions_filter. eexists. split; [reflexivity|].
  destruct data as [p|props|elems]; try constructor.
  apply List.Forall_forall. intros tx Htx.
  apply List.filter_In in Htx as [_ Htx]. apply admitted_amount. exact Htx.
Qed.

(** C2, as stated, fails: the third check of the claim asks for a finite
    amount, and a record whose amount is -Infinity is returned by the
    validator although it does not pass that check. *)
Lemma validator_is_not_the_finite_filter :
  @validTransactions SampleHost.host (VArray [writeoff; groceries])
  = Normal [writeoff; groceries]
  /\ List.filter admitted_finite [writeoff; groceries] = [groceries].
Proof. split; reflexivity. Qed.

(** C2, amended: for any input value the validator returns a sequence and
    never throws; the result is empty when the input is not an array, and
    otherwise it is exactly the elements passing the six checks (non-null
    object, description not "Opening Balance", amount a number that is not
    NaN, truthy date, truthy description, truthy category), in input order. *)
Theorem validator_total_and_exact `{Host} (data : value) :
  exists valid,
    validTransactions data = Normal valid
    /\ match data with
       | VArray elems => valid = List.filter admitted elems /\ sublist valid elems
       | _ => valid = []
       end.
Proof.
  rewrite validTransactions_filter. eexists. split; [reflexivity|].
  destruct data as [p|props|elems]; try reflexivity.
  split; [reflexivity|apply filter_sublist].
Qed.

(** C6: validation is idempotent, so the summary and the category totals of
    a validated list do not change when it is validated again. *)
Theorem validation_idempotent `{Host} (data : value) :
  exists valid,
    validTransactions data = Normal valid
    /\ validTransactions (VArray valid) = Normal valid
    /\ summaryOf (VArray valid) = summaryOf data
    /\ categoryTotalsOf (VArray valid) = categoryTotalsOf data.
Proof.
  unfold summaryOf, categoryTotalsOf.
  rewrite (validTransactions_filter data).
  set (valid := match data with VArray elems => List.filter admitted elems | _ => [] end).
  assert (Hagain : validTransactions (VArray valid) = Normal valid).
  { rewrite validTransactions_filter. subst valid.
    destruct data as [p|props|elems]; try reflexivity.
    rewrite filter_idempotent. reflexivity. }
  exists valid. rewrite Hagain. repeat split; reflexivity.
Qed.

(** ** The sentinel and the zero amount *)

(** C3: a record whose description is "Opening Balance" never appears in
    the validator's output, and the summary and the category totals shown for
    a response are the same with the record and without it. *)
Theorem sentinel_excluded `{Host} (before after : list value) (r : value) :
  Get r description = Normal (VString "Opening Balance") ->
  (exists valid,
      validTransactions (VArray (before ++ r :: after)) = Normal valid
      /\ validTransactions (VArray (before ++ after)) = Normal valid
      /\ ~ In r valid)
  /\ summaryOf (VArray (before ++ r :: after)) = summaryOf (VArray (before ++ after))
  /\ categoryTotalsOf (VArray (before ++ r :: after))
     = categoryTotalsOf (VArray (before ++ after)).
Proof.
  intros Hr. pose proof (sentinel_not_admitted r Hr) as Hno.
  assert (Hsame : validTransactions (VArray (before ++ r :: after))
                  = validTransactions (VArray (before ++ after))).
  { rewrite !validTransactions_filter, !List.filter_app. simpl.
    rewrite Hno. reflexivity. }
  unfold summaryOf, categoryTotalsOf. rewrite Hsame.
  split; [|split; reflexivity].
  rewrite validTransactions_filter. eexists. repeat split.
  intros Hin. apply List.filter_In in Hin as [_ Hin]. congruence.
Qed.

Lemma sentinel_excluded_example :
  Get opening description = Normal (VString "Opening Balance")
  /\ @summaryOf SampleHost.host (VArray ([salary] ++ opening :: [groceries]))
     = @summaryOf SampleHost.host (VArray ([salary] ++ [groceries]))
  /\ @categoryTotalsOf SampleHost.host (VArray ([salary] ++ opening :: [groceries]))
     = @categoryTotalsOf SampleHost.host (VArray ([salary] ++ [groceries])).
Proof.
  split; [reflexivity|].
  apply (@sentinel_excluded SampleHost.host [salary] [groceries] opening).
  reflexivity.
Defined.

(** The exclusion from the summary is the validator's: on a list that was
    not validated, DashboardMetrics counts an "Opening Balance" record like
    any other. *)
Remark DashboardMetrics_counts_unvalidated_sentinel :
  @DashboardMetrics SampleHost.host [opening]
  = Normal {| totalIncome := PNumber (of_Z 10000);
              totalExpenses := PNumber zero;
              netSavings := PNumber (of_Z 10000) |}.
Proof. reflexivity. Qed.

(** C10: a record with amount 0 (of either sign) that meets the other checks
    is admitted by the validator, and neither the summary nor the category
    totals change when it is added to a list. *)
Theorem zero_amount_is_neutral `{Host} (r : value) (s : bool) :
  field_value r amount = VNumber (S754_zero s) ->
  not_sentinel r = true ->
  truthy_field r date = true ->
  truthy_field r description = true ->
  truthy_field r category = true ->
  (forall before after,
      validTransactions (VArray (before ++ r :: after))
      = Normal (List.filter admitted before ++ r :: List.filter admitted after)%list)
  /\ (forall a b, DashboardMetrics (a ++ r :: b) = DashboardMetrics (a ++ b))
  /\ (forall a b, spendingByCategory (a ++ r :: b) = spendingByCategory (a ++ b)).
Proof.
  intros Hz Hs Hd Hdesc Hc.
  assert (Hobj : is_structured r = true).
  { destruct r as [p|props|elems]; [discriminate|reflexivity|reflexivity]. }
  assert (Hget : Get r amount = Normal (VNumber (S754_zero s))).
  { rewrite (Get_structured _ _ Hobj), Hz. reflexivity. }
  assert (Hadm : admitted r = true).
  { unfold admitted, numeric_amount. rewrite Hobj, Hs, Hz, Hd, Hdesc, Hc. reflexivity. }
  split; [|split].
  - intros before after. rewrite validTransactions_filter, List.filter_app. simpl.
    rewrite Hadm. reflexivity.
  - intros a b. apply (DashboardMetrics_skip a b r _ Hget); reflexivity.
  - intros a b. apply (spendingByCategory_skip a b r _ Hget); reflexivity.
Qed.

Lemma zero_amount_is_neutral_example :
  field_value freebie amount = VNumber zero
  /\ @validTransactions SampleHost.host (VArray ([salary] ++ freebie :: [groceries]))
     = Normal [salary; freebie; groceries]
  /\ @DashboardMetrics SampleHost.host ([salary] ++ freebie :: [groceries])
     = @DashboardMetrics SampleHost.host ([salary] ++ [groceries])
  /\ @spendingByCategory SampleHost.host ([salary] ++ freebie :: [groceries])
     = @spendingByCategory SampleHost.host ([salary] ++ [groceries]).
Proof.
  split; [reflexivity|].
  destruct (@zero_amount_is_neutral SampleHost.host freebie false
              eq_refl eq_refl eq_refl eq_refl eq_refl) as (Hv & Hm & Hc).
  split; [|split].
  - rewrite Hv. reflexivity.
  - apply Hm.
  - apply Hc.
Defined.

(** ** The aggregates *)

(** C4: on a list of records with numeric amounts, [totalIncome] is the sum
    of the amounts greater than 0, [totalExpenses] the (negative) sum of the
    amounts less than 0, both taken left to right from 0 in floating point,
    and [netSavings] is their floating-point sum; on the empty list all three
    are 0. *)
Theorem summary_is_sum_by_sign `{Host} (txs : list value) :
  Forall has_numeric_amount txs ->
  DashboardMetrics txs =
  Normal {| totalIncome := PNumber (sum_of_positive txs);
            totalExpenses := PNumber (sum_of_negative txs);
            netSavings := PNumber (add (sum_of_positive txs) (sum_of_negative txs)) |}
  /\ (txs = [] ->
      DashboardMetrics txs =
      Normal {| totalIncome := PNumber zero;
                totalExpenses := PNumber zero;
                netSavings := PNumber zero |}).
Proof.
  intros Hall. split; [apply DashboardMetrics_numeric; exact Hall|].
  intros ->. reflexivity.
Qed.

(** What the dashboard shows for any response is the sum by sign over the
    validated list. *)
Corollary summaryOf_is_sum_by_sign `{Host} (data : value) :
  exists valid,
    validTransactions data = Normal valid
    /\ summaryOf data =
       Normal {| totalIncome := PNumber (sum_of_positive valid);
                 totalExpenses := PNumber (sum_of_negative valid);
                 netSavings := PNumber (add (sum_of_positive valid) (sum_of_negative valid)) |}.
Proof.
  unfold summaryOf. rewrite validTransactions_filter. eexists. split; [reflexivity|].
  simpl. apply DashboardMetrics_numeric.
  apply List.Forall_forall. intros tx Htx.
  assert (Hadm : admitted tx = true).
  { destruct data as [p|props|elems]; try contradiction.
    apply List.filter_In in Htx as [_ Htx]. exact Htx. }
  destruct (admitted_amount tx Hadm) as (n & Hn & _). exists n. exact Hn.
Qed.

Lemma summary_is_sum_by_sign_example :
  Forall has_numeric_amount [salary; groceries]
  /\ @DashboardMetrics SampleHost.host [salary; groceries] =
     Normal {| totalIncome := PNumber (of_Z 50000);
               totalExpenses := PNumber (of_Z (-1500));
               netSavings := PNumber (of_Z 48500) |}.
Proof.
  assert (Hall : Forall has_numeric_amount [salary; groceries]).
  { repeat constructor; eexists; reflexivity. }
  split; [exact Hall|].
  destruct (@summary_is_sum_by_sign SampleHost.host [salary; groceries] Hall) as [E _].
  rewrite E. reflexivity.
Defined.

(** C5 fails on the code for a category that names a member of
    [Object.prototype].  The accumulator [{}] inherits that member, so
    [acc[category] || 0] is the inherited function instead of 0 and [+]
    concatenates: the bucket holds a string where the claim has the sum 1500.
    For [__proto__] the assignment is ignored and the expense of 300 is in no
    bucket at all.  (On every other label the claim holds, see
    [spendingByCategory_plain].) *)
Theorem spendingByCategory_inherited_name `{Host} :
  (exists totals,
      spendingByCategory [mislabeled] = Normal totals
      /\ totals !! "toString"
         = Some (PString (FunctionToString "toString" +:+ NumberToString (of_Z 1500)))
      /\ category_total [mislabeled] "toString" = Some (PNumber (of_Z 1500)))
  /\ spendingByCategory [proto_labeled] = Normal ∅
  /\ category_total [proto_labeled] "__proto__" = Some (PNumber (of_Z 300)).
Proof.
  split; [|split; reflexivity].
  eexists. split; [reflexivity|]. split; reflexivity.
Qed.

(** ** The session controller *)

(** C9: selecting a file records the handle, clears [transactions] and
    [error], and leaves [loading] and [password] as they were. *)
Theorem handleFileChange_frame (files : list File) (s : State) :
  let s' := handleFileChange files s in
  file s' = head files
  /\ transactions s' = []
  /\ error s' = None
  /\ loading s' = loading s
  /\ password s' = password s.
Proof. repeat split; reflexivity. Qed.

(** C8: with no file selected, submitting sends nothing to the transport,
    sets [error] to the "select a file first" message, and leaves every other
    field of the state as it was. *)
Theorem submit_without_file `{Host} (transport : FormData -> outcome) (s : State) :
  file s = None ->
  handleSubmit s = NotSent (setError (Some "Please select a file first.") s)
  /\ snd (submit transport s) = []
  /\ let s' := fst (submit transport s) in
     error s' = Some "Please select a file first."
     /\ loading s' = loading s
     /\ transactions s' = transactions s
     /\ file s' = file s
     /\ password s' = password s.
Proof.
  intros Hnone. unfold submit, handleSubmit. rewrite Hnone. simpl.
  repeat split; try reflexivity. exact Hnone.
Qed.

Lemma submit_without_file_example :
  file initial = None
  /\ handleSubmit initial = NotSent (setError (Some "Please select a file first.") initial)
  /\ snd (@submit SampleHost.host unreachable initial) = [].
Proof.
  split; [reflexivity|].
  destruct (@submit_without_file SampleHost.host unreachable initial eq_refl)
    as (Hrejected & Hsent & _).
  split; [exact Hrejected|exact Hsent].
Defined.

(** C7, as stated, fails: the body of the failure below has a [detail]
    field, an empty string, and the message shown is the one naming the
    status code, because the code tests the field with [||]. *)
Lemma empty_detail_is_not_surfaced :
  handleSubmit ready = Sent waiting {| form_file := statement; form_password := "" |}
  /\ field_value (VObject [("detail", VString "")]) detail = VString ""
  /\ error (fst (@settle SampleHost.host
                   (Rejected (server_failure 500 (VObject [("detail", VString "")])))
                   waiting))
     = Some "Error: Server responded with status 500".
Proof. repeat split; reflexivity. Qed.

(** A [detail] that is not a string is shown through its string conversion:
    the list of error objects of a request validation failure reads
    "[object Object]". *)
Remark structured_detail_is_converted :
  error (fst (@settle SampleHost.host
                (Rejected (server_failure 422
                             (VObject [("detail",
                                        VArray [VObject [("msg", VString "field required")]])])))
                waiting))
  = Some "Error: [object Object]".
Proof. reflexivity. Qed.

(** The message computation itself throws when [detail] is an object with
    an own [toString] entry: the template literal cannot convert it, the
    [catch] block is left before [setError], and only [finally] runs. *)
Remark unconvertible_detail_leaves_no_message :
  @settle SampleHost.host
    (Rejected (server_failure 500
                 (VObject [("detail", VObject [("toString", VNumber (of_Z 1))])])))
    waiting
  = (setLoading false waiting,
     Throw (TypeError "Cannot convert object to primitive value")).
Proof. reflexivity. Qed.

(** C7, amended: for every session state, when the transport reports a
    failure the controller sets [loading] to false and, whenever the
    classified message can be computed, sets [error] to it and forces
    [transactions] to the empty list, whatever they held; the message can
    always be computed for a cancellation, a timeout, a network or a setup
    failure; for a server-reported failure it is "Error: " followed by the
    body's [detail] verbatim when that is a non-empty string, and the message
    naming the status code when [detail] is absent or falsy. *)
Theorem failure_returns_to_idle `{Host} (s : State) (err : AxiosError) :
  let final := fst (settle (Rejected err) s) in
  loading final = false
  /\ (forall msg, errorMessage err = Normal msg ->
                  error final = Some msg /\ transactions final = [])
  /\ (cancelled err = true \/ code err = Some "ECONNABORTED" \/ response err = None ->
      exists msg, errorMessage err = Normal msg)
  /\ (forall r,
        cancelled err = false -> code err <> Some "ECONNABORTED" -> response err = Some r ->
        (forall d, response_detail r = VString d -> d <> "" ->
                   errorMessage err = Normal ("Error: " +:+ d))
        /\ (ToBoolean (response_detail r) = false ->
            errorMessage err
            = Normal ("Error: Server responded with status " +:+ NumberToString (status r)))).
Proof.
  cbv zeta. unfold settle, catch_block.
  split; [|split; [|split]].
  - destruct (errorMessage err); reflexivity.
  - intros msg ->. split; reflexivity.
  - intros Hclass. unfold errorMessage.
    destruct (cancelled err); [eexists; reflexivity|].
    destruct (bool_decide (code err = Some "ECONNABORTED")) eqn:Ecode;
      [eexists; reflexivity|].
    destruct Hclass as [Hc|[Hc|Hr]]; [discriminate| |].
    + apply bool_decide_eq_false_1 in Ecode. contradiction.
    + rewrite Hr. destruct (request err); eexists; reflexivity.
  - intros r Hc Hcode Hr. unfold errorMessage. rewrite Hc, Hr.
    rewrite bool_decide_eq_false_2 by exact Hcode.
    split.
    + intros d Hd Hne. rewrite Hd. unfold js_or. simpl.
      destruct (String.eqb d "") eqn:E; [apply String.eqb_eq in E; contradiction|].
      reflexivity.
    + intros Hfalsy. unfold js_or. simpl. rewrite Hfalsy. reflexivity.
Qed.

(** The theorem at a state that is not waiting and still holds the result of
    an earlier analysis: the failure empties [transactions]. *)
Lemma failure_returns_to_idle_example :
  transactions (setTransactions [salary] ready) = [salary]
  /\ let final := fst (@settle SampleHost.host
                         (Rejected (server_failure 400
                                      (VObject [("detail", VString "Invalid password")])))
                         (setTransactions [salary] ready)) in
     loading final = false
     /\ error final = Some "Error: Invalid password"
     /\ transactions final = [].
Proof.
  split; [reflexivity|].
  destruct (@failure_returns_to_idle SampleHost.host (setTransactions [salary] ready)
              (server_failure 400 (VObject [("detail", VString "Invalid password")])))
    as (Hl & Hset & _ & Hserver).
  destruct (Hserver _ eq_refl ltac:(discriminate) eq_refl) as [Hdetail _].
  split; [exact Hl|].
  apply Hset. apply (Hdetail "Invalid password"); [reflexivity|discriminate].
Defined.

(** * Further properties of the components *)

(** ** The validator as a function on lists *)

Lemma filter_all {A : Type} (p : A -> bool) (l : list A) :
  List.filter p l = l <-> Forall (fun x => p x = true) l.
Proof.
  split.
  - intros Heq. apply List.Forall_forall. intros x Hx.
    rewrite <- Heq in Hx. apply List.filter_In in Hx. tauto.
  - induction 1 as [|x l Hx _ IH]; simpl; [reflexivity|].
    rewrite Hx, IH. reflexivity.
Qed.

(** Each element is judged on its own: validating a concatenation gives the
    concatenation of the validated parts. *)
Theorem validTransactions_app `{Host} (a b : list value) :
  exists va vb,
    validTransactions (VArray a) = Normal va
    /\ validTransactions (VArray b) = Normal vb
    /\ validTransactions (VArray (a ++ b)) = Normal (va ++ vb)%list.
Proof.
  exists (List.filter admitted a), (List.filter admitted b).
  rewrite !validTransactions_filter, List.filter_app. repeat split; reflexivity.
Qed.

(** The validator returns its input unchanged exactly when every element
    passes the checks: no well-formed record is ever dropped or altered. *)
Theorem validTransactions_keeps_all `{Host} (elems : list value) :
  validTransactions (VArray elems) = Normal elems
  <-> Forall (fun tx => admitted tx = true) elems.
Proof.
  rewrite validTransactions_filter, <- filter_all.
  split; [intros [= E]; exact E|intros ->; reflexivity].
Qed.

Lemma truthy_field_own (props : list (string * value)) (f : field) :
  truthy_field (VObject props) f = true ->
  exists v, own_property props (field_name f) = Some v /\ ToBoolean v = true.
Proof.
  unfold truthy_field, field_value.
  destruct (own_property props (field_name f)) as [v|]; simpl; [|discriminate].
  intros Hv. exists v. split; [reflexivity|exact Hv].
Qed.

Lemma admitted_has_all_fields (tx : value) : admitted tx = true -> has_all_fields tx.
Proof.
  unfold admitted. rewrite !andb_true_iff.
  intros [[[[[Hs _] Hn] Hd] Hdesc] Hc].
  destruct tx as [p|props|elems]; [discriminate| |discriminate].
  destruct (truthy_field_own props date Hd) as (d & Ed & Td).
  destruct (truthy_field_own props description Hdesc) as (desc & Edesc & Tdesc).
  destruct (truthy_field_own props category Hc) as (c & Ec & Tc).
  unfold numeric_amount, field_value in Hn. simpl in Hn, Ed, Edesc, Ec.
  destruct (own_property props "amount") as [[[| |b|n|s]|o|l]|] eqn:Ea; try discriminate.
  exists props, d, desc, c, n. repeat split; assumption.
Qed.

(** Everything the validator returns is an object that has date,
    description, category and amount as own properties, the first three
    truthy and the last a number: the table never reads a missing field. *)
Theorem validated_records_have_all_fields `{Host} (data : value) :
  exists valid,
    validTransactions data = Normal valid /\ Forall has_all_fields valid.
Proof.
  rewrite validTransactions_filter. eexists. split; [reflexivity|].
  destruct data as [p|props|elems]; try constructor.
  apply List.Forall_forall. intros tx Htx.
  apply List.filter_In in Htx as [_ Htx]. apply admitted_has_all_fields. exact Htx.
Qed.

(** ** The session controller: settlement, rendering, sequences *)

Lemma settle_fulfilled `{Host} (r : Response) (s : State) :
  settle (Fulfilled r) s
  = (after_success s (match data r with
                      | VArray elems => List.filter admitted elems
                      | _ => []
                      end),
     Normal tt).
Proof.
  unfold settle, try_body. rewrite validTransactions_filter. simpl.
  destruct (match data r with VArray elems => List.filter admitted elems | _ => [] end)
    as [|tx rest]; reflexivity.
Qed.

(** A fulfilled request, on whatever the state is when it settles: the
    handler ends normally, [transactions] becomes the validated response,
    [loading] false, and [error] the "no valid transactions" notice exactly
    when nothing was validated; file and password are untouched. *)
Theorem fulfilled_stores_validated `{Host} (r : Response) (s : State) :
  exists valid,
    validTransactions (data r) = Normal valid
    /\ settle (Fulfilled r) s = (after_success s valid, Normal tt).
Proof.
  eexists. split; [apply validTransactions_filter|apply settle_fulfilled].
Qed.

Lemma errorMessage_not_empty `{Host} (err : AxiosError) (msg : string) :
  errorMessage err = Normal msg -> msg <> "".
Proof.
  unfold errorMessage.
  destruct (cancelled err); [intros [= <-]; discriminate|].
  destruct (bool_decide _); [intros [= <-]; discriminate|].
  destruct (response err) as [r|].
  - destruct (_ ||| _) as [shown|e]; simpl; [|discriminate].
    destruct (ToString shown) as [text|e]; simpl; [|discriminate].
    intros [= <-]. discriminate.
  - destruct (request err); intros [= <-]; discriminate.
Qed.

Lemma not_empty_eqb (m : string) : m <> "" -> String.eqb m "" = false.
Proof. intros Hm. apply String.eqb_neq. exact Hm. Qed.

(** A failure whose message can be computed is always visible: the message
    is not empty, and after the settlement the error banner is shown and
    neither the dashboard nor the progress indicator is. *)
Theorem failure_is_shown `{Host} (err : AxiosError) (s : State) (msg : string) :
  errorMessage err = Normal msg ->
  let final := fst (settle (Rejected err) s) in
  msg <> ""
  /\ error final = Some msg
  /\ showError final = true
  /\ showDashboard final = false
  /\ showLoading final = false.
Proof.
  intros Hmsg. pose proof (errorMessage_not_empty err msg Hmsg) as Hne.
  unfold settle, catch_block. rewrite Hmsg. simpl.
  unfold showError, error_truthy. simpl. rewrite (not_empty_eqb msg Hne).
  repeat split; try reflexivity. exact Hne.
Qed.

Lemma failure_is_shown_example :
  @errorMessage SampleHost.host network_down
  = Normal "Could not connect to the backend server. Please ensure it is running."
  /\ showError (fst (@settle SampleHost.host (Rejected network_down) waiting)) = true.
Proof.
  split; [reflexivity|].
  destruct (@failure_is_shown SampleHost.host network_down waiting _ eq_refl)
    as (_ & _ & Hshown & _).
  exact Hshown.
Defined.

(** The submit button and the handler agree: whenever the button is enabled
    the handler sends a request carrying the selected file and the current
    password, and in the state it leaves while waiting the button is
    disabled, the progress indicator is shown and nothing else is. *)
Theorem enabled_submit_sends (s : State) :
  submitDisabled s = false ->
  exists f pending,
    file s = Some f
    /\ handleSubmit s = Sent pending {| form_file := f; form_password := password s |}
    /\ submitDisabled pending = true
    /\ showLoading pending = true
    /\ showError pending = false
    /\ showDashboard pending = false.
Proof.
  unfold submitDisabled, handleSubmit. intros Hen.
  apply orb_false_elim in Hen as [_ Hfile].
  destruct (file s) as [f|]; [|discriminate].
  exists f. eexists. repeat split.
Qed.

Lemma enabled_submit_sends_example :
  submitDisabled ready = false
  /\ exists pending,
       handleSubmit ready = Sent pending {| form_file := statement; form_password := "" |}
       /\ submitDisabled pending = true.
Proof.
  split; [reflexivity|].
  destruct (enabled_submit_sends ready eq_refl)
    as (f & pending & Hf & Hsent & Hdis & _).
  injection Hf as <-. exists pending. split; [exact Hsent|exact Hdis].
Defined.

(** The "select a file first" branch cannot be reached through the button:
    where the handler rejects the submission the button is disabled. *)
Theorem rejected_submit_was_disabled (s s' : State) :
  handleSubmit s = NotSent s' -> submitDisabled s = true.
Proof.
  unfold handleSubmit, submitDisabled.
  destruct (file s); [discriminate|]. intros _. apply orb_true_r.
Qed.

Lemma rejected_submit_was_disabled_example :
  handleSubmit initial = NotSent (setError (Some "Please select a file first.") initial)
  /\ submitDisabled initial = true.
Proof.
  split; [reflexivity|].
  exact (rejected_submit_was_disabled initial _ eq_refl).
Defined.

(** A submission with a file selected runs as it would from a fresh state
    holding that file and password. *)
Lemma submit_from_fresh `{Host}
    (transport : FormData -> outcome) (s : State) (f : File) :
  file s = Some f ->
  submit transport s
  = submit transport {| file := Some f; password := password s; transactions := [];
                        loading := false; error := None |}.
Proof.
  intros Hf. unfold submit, handleSubmit. rewrite Hf. simpl.
  unfold settle, try_body, catch_block.
  destruct (transport _) as [r|err].
  - rewrite validTransactions_filter. simpl.
    destruct (bool_decide _); unfold setLoading, setError, setTransactions; simpl;
      rewrite Hf; reflexivity.
  - destruct (errorMessage err); unfold setLoading, setError, setTransactions; simpl;
      rewrite Hf; reflexivity.
Qed.

(** What a submission leaves behind depends on the state it starts from only
    through the selected file and the password: nothing of an earlier
    analysis or error survives it. *)
Theorem submit_forgets_history `{Host}
    (transport : FormData -> outcome) (s1 s2 : State) (f : File) :
  file s1 = Some f -> file s2 = Some f -> password s1 = password s2 ->
  submit transport s1 = submit transport s2.
Proof.
  intros H1 H2 Hp.
  rewrite (submit_from_fresh transport s1 f H1), (submit_from_fresh transport s2 f H2), Hp.
  reflexivity.
Qed.

Lemma submit_forgets_history_example :
  file ready = Some statement
  /\ @submit SampleHost.host unreachable ready
     = @submit SampleHost.host unreachable
         (setError (Some "stale") (setTransactions [salary] ready)).
Proof.
  split; [reflexivity|].
  apply (@submit_forgets_history SampleHost.host unreachable ready _ statement);
    reflexivity.
Defined.

(** Submitting again, with the transport answering the same, changes
    nothing. *)
Theorem submit_twice `{Host} (transport : FormData -> outcome) (s : State) :
  fst (submit transport (fst (submit transport s))) = fst (submit transport s).
Proof.
  destruct (file s) as [f|] eqn:Hf.
  - assert (Hfile : file (fst (submit transport s)) = Some f
                    /\ password (fst (submit transport s)) = password s).
    { unfold submit, handleSubmit. rewrite Hf. unfold settle, try_body, catch_block.
      destruct (transport _) as [r|err].
      - rewrite validTransactions_filter. simpl.
        destruct (bool_decide _); split; assumption || reflexivity.
      - destruct (errorMessage err); split; assumption || reflexivity. }
    destruct Hfile as [Hfile Hpass].
    rewrite (submit_from_fresh transport _ f Hfile), Hpass.
    rewrite <- (submit_from_fresh transport s f Hf). reflexivity.
  - unfold submit, handleSubmit. rewrite Hf. simpl. rewrite Hf. reflexivity.
Qed.

Section SessionFacts.
Context `{Host}.

Lemma settle_admitted (o : outcome) (s : State) :
  Forall (fun tx => admitted tx = true) (transactions s) ->
  Forall (fun tx => admitted tx = true) (transactions (fst (settle o s))).
Proof.
  intros Hs. destruct o as [r|err].
  - rewrite settle_fulfilled. simpl.
    destruct (data r) as [p|props|elems]; try constructor.
    apply List.Forall_forall. intros tx Htx. apply List.filter_In in Htx. tauto.
  - unfold settle, catch_block. destruct (errorMessage err); simpl; [constructor|exact Hs].
Qed.

Lemma settle_messages (o : outcome) (s : State) :
  (forall m, error s = Some m -> m <> "") ->
  forall m, error (fst (settle o s)) = Some m -> m <> "".
Proof.
  intros Hs m. destruct o as [r|err].
  - rewrite settle_fulfilled. simpl.
    destruct (match data r with VArray _ => _ | _ => _ end); intros [= <-]. discriminate.
  - unfold settle, catch_block. destruct (errorMessage err) as [msg|e] eqn:E; simpl.
    + intros [= <-]. exact (errorMessage_not_empty err msg E).
    + apply Hs.
Qed.

Lemma step_settled (s : State) (e : event) : settled s -> settled (step s e).
Proof.
  intros (Hl & Ha & Ht & Hm). destruct e as [files|p|o]; simpl.
  - repeat split; try assumption; try constructor; try discriminate; contradiction.
  - repeat split; try assumption; apply Ht; assumption.
  - unfold submit, handleSubmit. destruct (file s) as [f|] eqn:Hf; simpl.
    + set (pending := setTransactions [] (setError None (setLoading true s))).
      destruct o as [r|err].
      * rewrite settle_fulfilled.
        set (valid := match data r with VArray elems => List.filter admitted elems | _ => [] end).
        assert (Hv : match data r with VArray elems => List.filter admitted elems | _ => [] end
                     = valid) by reflexivity.
        split; [reflexivity|]. split; [|split].
        -- simpl. subst valid. destruct (data r) as [p|props|elems]; try constructor.
           apply List.Forall_forall. intros tx Htx. apply List.filter_In in Htx. tauto.
        -- simpl. intros Hne. destruct valid; [contradiction|].
           split; [reflexivity|]. rewrite Hf. discriminate.
        -- simpl. destruct valid; intros m [= <-]. discriminate.
      * unfold settle, catch_block.
        destruct (errorMessage err) as [msg|ex] eqn:E; simpl.
        -- repeat split; try constructor; try contradiction.
           intros m [= <-]. exact (errorMessage_not_empty err msg E).
        -- repeat split; try constructor; try contradiction. discriminate.
    + split; [exact Hl|]. split; [exact Ha|]. split.
      * simpl. intros Hne. destruct (Ht Hne) as [_ Hfile]. congruence.
      * simpl. intros m [= <-]. discriminate.
Qed.

Lemma initial_settled : settled initial.
Proof. repeat split; try constructor; try discriminate; contradiction. Qed.

Lemma fold_step_settled (events : list event) (s : State) :
  settled s -> settled (fold_left step events s).
Proof.
  revert s. induction events as [|e events IH]; intros s Hs; simpl; [exact Hs|].
  apply IH. apply step_settled. exact Hs.
Qed.

(** The invariant of sessions in which every submission is carried through
    before the next event: from the initial state, after any sequence of file
    selections, password edits and submissions, [loading] is false, every
    stored transaction passed the validator, stored transactions come with a
    selected file and no error, and no message is empty. *)
Theorem run_settled (events : list event) : settled (run initial events).
Proof. apply fold_step_settled. exact initial_settled. Qed.

(** In such sessions what is on screen follows from the state alone: an
    error, once set, is always shown, the dashboard is shown exactly when
    transactions are stored, the two are never shown together, and the
    progress indicator is off. *)
Theorem run_shows (events : list event) :
  let s := run initial events in
  (showError s = true <-> error s <> None)
  /\ (showDashboard s = true <-> transactions s <> [])
  /\ (showError s && showDashboard s = false)
  /\ showLoading s = false.
Proof.
  destruct (fold_step_settled events initial initial_settled) as (Hl & _ & Ht & Hm).
  fold (run initial events) in Hl, Ht, Hm.
  set (s := run initial events) in *. cbv zeta.
  unfold showError, showDashboard, showLoading, error_truthy. rewrite Hl. simpl.
  split; [|split; [|split]].
  - destruct (error s) as [m|] eqn:E.
    + rewrite (not_empty_eqb m (Hm m eq_refl)). simpl.
      destruct (transactions s) as [|tx rest] eqn:Et.
      * split; [discriminate|reflexivity].
      * destruct Ht as [Hnone _]; [discriminate|discriminate].
    + simpl. split; [discriminate|contradiction].
  - destruct (transactions s); simpl; split; try discriminate; try reflexivity; contradiction.
  - destruct (transactions s); simpl; [apply andb_false_r|]. rewrite andb_false_r. reflexivity.
  - reflexivity.
Qed.

Lemma act_admitted (s : State) (a : action) :
  (Forall (fun tx => admitted tx = true) (transactions s)
   /\ forall m, error s = Some m -> m <> "") ->
  Forall (fun tx => admitted tx = true) (transactions (act s a))
  /\ forall m, error (act s a) = Some m -> m <> "".
Proof.
  intros [Ha Hm]. destruct a as [files|p| |o]; simpl.
  - split; [constructor|discriminate].
  - split; assumption.
  - unfold handleSubmit. destruct (file s); simpl.
    + split; [constructor|discriminate].
    + split; [exact Ha|]. intros m [= <-]. discriminate.
  - split; [apply settle_admitted; exact Ha|apply settle_messages; exact Hm].
Qed.

(** Also when settlements arrive late, out of order, or after the file was
    changed: whatever the interleaving of selections, edits, submissions and
    settlements, every stored transaction passed the validator and no stored
    message is empty. *)
Theorem interleave_admitted (actions : list action) :
  let s := interleave initial actions in
  Forall (fun tx => admitted tx = true) (transactions s)
  /\ forall m, error s = Some m -> m <> "".
Proof.
  unfold interleave.
  assert (Hgen : forall s,
             (Forall (fun tx => admitted tx = true) (transactions s)
              /\ forall m, error s = Some m -> m <> "") ->
             Forall (fun tx => admitted tx = true) (transactions (fold_left act actions s))
             /\ forall m, error (fold_left act actions s) = Some m -> m <> "").
  { induction actions as [|a actions IH]; intros s Hs; simpl; [exact Hs|].
    apply IH. apply act_admitted. exact Hs. }
  apply Hgen. split; [constructor|discriminate].
Qed.

End SessionFacts.

(** A settlement that arrives after another file was selected still stores
    its transactions: the dashboard then shows the analysis of the file that
    is no longer selected. *)
Remark late_settlement_is_stored :
  let s := @interleave SampleHost.host initial
             [ Select [statement]; Start; Select [FileHandle "other.pdf"];
               Finish (Fulfilled {| data := VArray [salary]; status := of_Z 200 |}) ] in
  file s = Some (FileHandle "other.pdf")
  /\ transactions s = [salary]
  /\ showDashboard s = true.
Proof. repeat split; reflexivity. Qed.

(** ** Signs of sums *)

Lemma binary_round_aux_sign (sx : bool) (m e : Z) (l : location) :
  0 <= m -> has_sign sx (binary_round_aux prec emax sx m e l) = true.
Proof.
  intros Hm. unfold binary_round_aux.
  pose proof (shr_fexp_nonneg m e l Hm) as H1.
  destruct (shr_fexp prec emax m e l) as [mrs' e'].
  simpl in H1.
  pose proof (shr_fexp_nonneg _ e' loc_Exact
                (round_nearest_even_nonneg _ (loc_of_shr_record mrs') H1)) as H2.
  destruct (shr_fexp prec emax _ e' loc_Exact) as [mrs'' e''].
  simpl in H2.
  destruct (shr_m mrs'') as [|p|p]; [destruct sx; reflexivity| |lia].
  destruct (e'' <=? emax - prec); destruct sx; reflexivity.
Qed.

Lemma binary_normalize_not_nan (m e : Z) :
  is_nan (binary_normalize prec emax m e false) = false.
Proof.
  destruct m as [|p|p]; [reflexivity| |]; unfold binary_normalize, binary_round;
    destruct (shl_align _ _ _) as [mz ez].
  - pose proof (binary_round_aux_sign false (Z.pos mz) ez loc_Exact ltac:(lia)) as Hs.
    destruct (binary_round_aux _ _ _ _ _ _); [reflexivity|reflexivity|discriminate|reflexivity].
  - pose proof (binary_round_aux_sign true (Z.pos mz) ez loc_Exact ltac:(lia)) as Hs.
    destruct (binary_round_aux _ _ _ _ _ _); [reflexivity|reflexivity|discriminate|reflexivity].
Qed.

Lemma add_negative (x y : number) :
  has_sign true x = true -> has_sign true y = true -> has_sign true (add x y) = true.
Proof.
  destruct x as [[]|[]| |[] mx ex], y as [[]|[]| |[] my ey]; try discriminate;
    intros _ _; try reflexivity.
  unfold add, SFadd, cond_Zopp.
  change (- Z.pos ?a + - Z.pos ?b) with (Z.neg (a + b)).
  unfold binary_normalize, binary_round.
  destruct (shl_align _ _ _) as [mz ez].
  apply binary_round_aux_sign. lia.
Qed.

Lemma negative_has_sign (x : number) : ltb x zero = true -> has_sign true x = true.
Proof. destruct x as [[]|[]| |[] m e]; try discriminate; reflexivity. Qed.

Lemma positive_signless (x : number) : ltb zero x = true -> signless x = true.
Proof. destruct x as [[]|[]| |[] m e]; try discriminate; reflexivity. Qed.

Lemma add_debit (x y : number) :
  debit_total x -> ltb y zero = true -> debit_total (add x y).
Proof.
  intros [->|Hx] Hy; right.
  - destruct y as [[]|[]| |[] m e]; try discriminate; reflexivity.
  - apply add_negative; [exact Hx|apply negative_has_sign; exact Hy].
Qed.

Lemma debit_nonpositive (x : number) : debit_total x -> leb x zero = true.
Proof.
  intros [->|Hx]; [reflexivity|].
  destruct x as [[]|[]| |[] m e]; try discriminate; reflexivity.
Qed.

(** A sum of a number without sign and a debit total is NaN only as
    Infinity + -Infinity. *)
Lemma add_nan_only_infinities (i e : number) :
  signless i = true -> debit_total e ->
  (is_nan (add i e) = true <-> i = Infinity /\ e = NegInfinity).
Proof.
  intros Hi [->|He].
  - destruct i as [[]|[]| |[] m ex]; try discriminate; simpl;
      split; try discriminate; intros [? ?]; discriminate.
  - destruct i as [[]|[]| |[] mi ei]; try discriminate;
      destruct e as [[]|[]| |[] me ee]; try discriminate;
      try (simpl; split; [discriminate|intros [? ?]; discriminate]);
      try (simpl; split; [intros _; split; reflexivity|intros _; reflexivity]).
    unfold add, SFadd. rewrite binary_normalize_not_nan.
    split; [discriminate|intros [? ?]; discriminate].
Qed.

Lemma fold_add_signless (l : list number) (start : number) :
  signless start = true -> Forall (fun n => ltb zero n = true) l ->
  signless (fold_left add l start) = true.
Proof.
  intros Hs Hall. revert start Hs.
  induction Hall as [|n l Hn _ IH]; intros start Hs; simpl; [exact Hs|].
  apply IH. apply add_signless; [exact Hs|apply positive_signless; exact Hn].
Qed.

Lemma fold_add_debit (l : list number) (start : number) :
  debit_total start -> Forall (fun n => ltb n zero = true) l ->
  debit_total (fold_left add l start).
Proof.
  intros Hs Hall. revert start Hs.
  induction Hall as [|n l Hn _ IH]; intros start Hs; simpl; [exact Hs|].
  apply IH. apply add_debit; assumption.
Qed.

Lemma Forall_filter_true {A : Type} (p : A -> bool) (l : list A) :
  Forall (fun x => p x = true) (List.filter p l).
Proof.
  apply List.Forall_forall. intros x Hx. apply List.filter_In in Hx. tauto.
Qed.

(** On records with numeric amounts the summary is three numbers with fixed
    signs: [totalIncome] is at least 0, [totalExpenses] is at most 0, neither
    is ever NaN, and [netSavings] is NaN only when the income has overflowed
    to Infinity and the expenses to -Infinity. *)
Theorem summary_signs `{Host} (txs : list value) :
  Forall has_numeric_amount txs ->
  exists i e n,
    DashboardMetrics txs
    = Normal {| totalIncome := PNumber i; totalExpenses := PNumber e; netSavings := PNumber n |}
    /\ leb zero i = true
    /\ leb e zero = true
    /\ (is_nan n = true <-> i = Infinity /\ e = NegInfinity).
Proof.
  intros Hall. rewrite (DashboardMetrics_numeric txs Hall).
  exists (sum_of_positive txs), (sum_of_negative txs). eexists.
  split; [reflexivity|].
  assert (Hi : signless (sum_of_positive txs) = true).
  { apply fold_add_signless; [reflexivity|].
    apply (Forall_filter_true (fun n => ltb zero n)). }
  assert (He : debit_total (sum_of_negative txs)).
  { apply fold_add_debit; [left; reflexivity|].
    apply (Forall_filter_true (fun n => ltb n zero)). }
  split; [apply signless_nonneg; exact Hi|].
  split; [apply debit_nonpositive; exact He|].
  apply add_nan_only_infinities; assumption.
Qed.

Lemma summary_signs_example :
  Forall has_numeric_amount [windfall; writeoff]
  /\ exists i e n,
       @DashboardMetrics SampleHost.host [windfall; writeoff]
       = Normal {| totalIncome := PNumber i; totalExpenses := PNumber e;
                   netSavings := PNumber n |}
       /\ leb zero i = true /\ leb e zero = true.
Proof.
  assert (Hall : Forall has_numeric_amount [windfall; writeoff]).
  { repeat constructor; eexists; reflexivity. }
  split; [exact Hall|].
  destruct (@summary_signs SampleHost.host [windfall; writeoff] Hall)
    as (i & e & n & Hm & Hi & He & _).
  exists i, e, n. repeat split; assumption.
Defined.

(** ** The components on lists that were not validated *)

Lemma filterM_throw {A : Type} (f : A -> completion value) (a b : list A) (x : A) (e : exn) :
  Forall (fun y => exists v, f y = Normal v) a -> f x = Throw e ->
  filterM f (a ++ x :: b) = Throw e.
Proof.
  intros Ha Hx. induction Ha as [|y a [v Hy] _ IH]; simpl.
  - rewrite Hx. reflexivity.
  - rewrite Hy. simpl. rewrite IH. reflexivity.
Qed.

Section UnvalidatedFacts.
Context `{Host}.

Lemma isSpending_numeric (tx : value) :
  has_numeric_amount tx -> exists v, isSpending tx = Normal v.
Proof.
  intros [n Hn]. unfold isSpending. fold (isExpense tx).
  rewrite (isExpense_number _ _ Hn). unfold js_and. simpl.
  destruct (ltb n zero); [|eexists; reflexivity].
  destruct tx as [[| |b|m|s]|props|elems]; simpl in Hn |- *; try discriminate;
    eexists; reflexivity.
Qed.

(** A [null] or [undefined] element makes both components throw a
    TypeError when they reach it; only the validator stands between such a
    response and the components. *)
Theorem nullish_element_throws (a b : list value) (x : value) :
  x = VNull \/ x = VUndefined ->
  Forall has_numeric_amount a ->
  (exists msg, DashboardMetrics (a ++ x :: b) = Throw (TypeError msg))
  /\ (exists msg, spendingByCategory (a ++ x :: b) = Throw (TypeError msg))
  /\ validTransactions (VArray (a ++ x :: b)) = validTransactions (VArray (a ++ b)).
Proof.
  intros Hx Ha.
  assert (Hthrow : exists msg, Get x amount = Throw (TypeError msg)).
  { destruct Hx as [->| ->]; eexists; reflexivity. }
  destruct Hthrow as [msg Hmsg].
  split; [|split].
  - exists msg. unfold DashboardMetrics.
    rewrite (filterM_throw isIncome a b x (TypeError msg)); [reflexivity| |].
    + eapply Forall_impl; [exact Ha|]. intros tx [n Hn].
      rewrite (isIncome_number _ _ Hn). eexists; reflexivity.
    + unfold isIncome. rewrite Hmsg. reflexivity.
  - exists msg. unfold spendingByCategory.
    rewrite (filterM_throw isSpending a b x (TypeError msg)); [reflexivity| |].
    + eapply Forall_impl; [exact Ha|]. intros tx. apply isSpending_numeric.
    + unfold isSpending. rewrite Hmsg. reflexivity.
  - rewrite !validTransactions_filter, !List.filter_app.
    destruct Hx as [->| ->]; reflexivity.
Qed.

(** A record whose amount compares neither above nor below 0 (a missing
    amount, [null], NaN, [false], a string that is not a number) is passed
    over by both components without an exception: the summary and the
    category totals are those of the list without it. *)
Theorem unsigned_amount_is_skipped (a b : list value) (r : value) (p : prim) :
  Get r amount = Normal (VPrim p) ->
  lt_prim (PNumber zero) p = false ->
  lt_prim p (PNumber zero) = false ->
  DashboardMetrics (a ++ r :: b) = DashboardMetrics (a ++ b)
  /\ spendingByCategory (a ++ r :: b) = spendingByCategory (a ++ b).
Proof.
  intros Hr Hpos Hneg.
  assert (Hinc : isIncome r = Normal (VBoolean false)).
  { unfold isIncome. rewrite Hr.
    change (Normal (VBoolean (lt_prim (PNumber zero) p)) = Normal (VBoolean false)).
    rewrite Hpos. reflexivity. }
  assert (Hexp : isExpense r = Normal (VBoolean false)).
  { unfold isExpense. rewrite Hr.
    change (Normal (VBoolean (lt_prim p (PNumber zero))) = Normal (VBoolean false)).
    rewrite Hneg. reflexivity. }
  split.
  - unfold DashboardMetrics.
    rewrite (filterM_skip isIncome a b r _ Hinc eq_refl).
    rewrite (filterM_skip isExpense a b r _ Hexp eq_refl). reflexivity.
  - unfold spendingByCategory.
    rewrite (filterM_skip isSpending a b r (VBoolean false)); [reflexivity| |reflexivity].
    unfold isSpending. fold (isExpense r). rewrite Hexp. reflexivity.
Qed.

End UnvalidatedFacts.

Lemma nullish_element_throws_example :
  (exists msg,
      @DashboardMetrics SampleHost.host ([salary] ++ VNull :: [groceries])
      = Throw (TypeError msg))
  /\ @validTransactions SampleHost.host (VArray ([salary] ++ VNull :: [groceries]))
     = @validTransactions SampleHost.host (VArray ([salary] ++ [groceries])).
Proof.
  assert (Ha : Forall has_numeric_amount [salary]).
  { repeat constructor. eexists; reflexivity. }
  destruct (@nullish_element_throws SampleHost.host [salary] [groceries] VNull
              (or_introl eq_refl) Ha) as (Hd & _ & Hv).
  split; assumption.
Defined.

(** A record that has no amount at all. *)
Lemma unsigned_amount_is_skipped_example :
  let r := VObject [("date", VString "2024-01-08"); ("description", VString "Rent");
                    ("category", VString "Housing")] in
  Get r amount = Normal VUndefined
  /\ @DashboardMetrics SampleHost.host ([salary] ++ r :: [groceries])
     = @DashboardMetrics SampleHost.host ([salary] ++ [groceries]).
Proof.
  split; [reflexivity|].
  apply (@unsigned_amount_is_skipped SampleHost.host [salary] [groceries] _ PUndefined);
    reflexivity.
Defined.

(** Without a negative amount there are no expenses to subtract: the net
    savings are the total income and the tile has the non-negative colour. *)
Theorem no_expenses_net `{Host} (txs : list value) :
  Forall has_numeric_amount txs ->
  Forall (fun tx => ltb (amount_of tx) zero = false) txs ->
  exists i,
    DashboardMetrics txs
    = Normal {| totalIncome := PNumber i; totalExpenses := PNumber zero;
                netSavings := PNumber i |}
    /\ netSavingsClass {| totalIncome := PNumber i; totalExpenses := PNumber zero;
                          netSavings := PNumber i |} = "text-cyan-400".
Proof.
  intros Hall Hnone. rewrite (DashboardMetrics_numeric txs Hall).
  assert (He : sum_of_negative txs = zero).
  { unfold sum_of_negative. rewrite <- (filter_map_comm amount_of (fun n => ltb n zero)).
    replace (List.filter (fun x => ltb (amount_of x) zero) txs) with (@nil value);
      [reflexivity|].
    symmetry. induction Hnone as [|tx l Htx _ IH]; simpl; [reflexivity|].
    rewrite Htx. apply IH. inversion Hall; assumption. }
  assert (Hi : signless (sum_of_positive txs) = true).
  { apply fold_add_signless; [reflexivity|].
    apply (Forall_filter_true (fun n => ltb zero n)). }
  rewrite He.
  assert (Hadd : add (sum_of_positive txs) zero = sum_of_positive txs).
  { destruct (sum_of_positive txs) as [[]|[]| |[] m e]; try discriminate; reflexivity. }
  rewrite Hadd. exists (sum_of_positive txs). split; [reflexivity|].
  unfold netSavingsClass, ge_prim. simpl.
  change (SFleb (S754_zero false) (sum_of_positive txs)) with (leb zero (sum_of_positive txs)).
  rewrite (signless_nonneg _ Hi). reflexivity.
Qed.

Lemma no_expenses_net_example :
  Forall has_numeric_amount [salary; freebie]
  /\ exists i,
       @DashboardMetrics SampleHost.host [salary; freebie]
       = Normal {| totalIncome := PNumber i; totalExpenses := PNumber zero;
                   netSavings := PNumber i |}.
Proof.
  assert (Hall : Forall has_numeric_amount [salary; freebie]).
  { repeat constructor; eexists; reflexivity. }
  split; [exact Hall|].
  destruct (@no_expenses_net SampleHost.host [salary; freebie] Hall) as (i & Hi & _).
  { repeat constructor. }
  exists i. exact Hi.
Defined.

(** ** The category chart: slices, updates, and when it throws *)

Lemma bucket_nonempty (txs : list value) (k : string) :
  bucket txs k <> [] <->
  exists tx, In tx txs /\ counted_expense tx = true /\ label_of tx = Some k.
Proof.
  unfold bucket. split.
  - intros Hne.
    destruct (List.filter _ txs) as [|tx rest] eqn:E; [contradiction|].
    assert (Hin : In tx (List.filter
                            (fun tx => counted_expense tx && bool_decide (label_of tx = Some k))
                            txs)) by (rewrite E; left; reflexivity).
    apply List.filter_In in Hin as [Hin Hc]. apply andb_prop in Hc as [Hc Hl].
    exists tx. repeat split; [exact Hin|exact Hc|]. apply bool_decide_eq_true_1 in Hl. exact Hl.
  - intros (tx & Hin & Hc & Hl) Hempty.
    assert (Hf : In tx (List.filter
                           (fun tx => counted_expense tx && bool_decide (label_of tx = Some k))
                           txs)).
    { apply List.filter_In. split; [exact Hin|].
      rewrite Hc, bool_decide_eq_true_2 by exact Hl. reflexivity. }
    destruct (List.filter _ txs); [contradiction|discriminate].
Qed.

Lemma category_total_is_Some (txs : list value) (k : string) :
  is_Some (category_total txs k) <-> bucket txs k <> [].
Proof.
  unfold category_total. destruct (bucket txs k); split.
  - intros [x Hx]. discriminate.
  - contradiction.
  - discriminate.
  - intros _. eexists; reflexivity.
Qed.

(** On plain records the chart has a slice for exactly the labels that carry
    at least one counted expense, and it shows the "No spending data" notice
    exactly when no record is a counted expense. *)
Theorem chart_slices `{Host} (txs : list value) :
  Forall plain_record txs ->
  exists totals,
    spendingByCategory txs = Normal totals
    /\ (forall k, is_Some (totals !! k)
                  <-> exists tx, In tx txs /\ counted_expense tx = true /\ label_of tx = Some k)
    /\ (noSpendingData totals = true
        <-> Forall (fun tx => counted_expense tx = false) txs).
Proof.
  intros Hall.
  destruct (spendingByCategory_plain txs Hall) as (totals & Hrun & Hlook & _).
  exists totals. split; [exact Hrun|].
  assert (Hslices : forall k, is_Some (totals !! k)
                    <-> exists tx, In tx txs /\ counted_expense tx = true /\ label_of tx = Some k).
  { intros k. rewrite Hlook, category_total_is_Some. apply bucket_nonempty. }
  split; [exact Hslices|].
  unfold noSpendingData. rewrite Nat.eqb_eq, map_size_empty_iff.
  split.
  - intros Hempty. apply List.Forall_forall. intros tx Hin.
    destruct (counted_expense tx) eqn:Hc; [exfalso|reflexivity].
    rewrite List.Forall_forall in Hall.
    destruct (Hall tx Hin) as (_ & _ & (k & Hk & _)).
    assert (Hsome : is_Some (totals !! k)) by (apply Hslices; eauto).
    rewrite Hempty, lookup_empty in Hsome. destruct Hsome; discriminate.
  - intros Hnone. apply map_empty. intros k.
    destruct (totals !! k) as [p|] eqn:E; [exfalso|reflexivity].
    assert (Hsome : is_Some (totals !! k)) by (rewrite E; eexists; reflexivity).
    apply Hslices in Hsome as (tx & Hin & Hc & _).
    rewrite List.Forall_forall in Hnone. rewrite (Hnone tx Hin) in Hc. discriminate.
Qed.

Lemma plain_examples : Forall plain_record [salary; groceries; opening].
Proof.
  repeat constructor; try (eexists; reflexivity);
    (eexists; split; [reflexivity|]);
    intros Hin; apply list_elem_of_In in Hin; simpl in Hin; intuition discriminate.
Qed.

Lemma chart_slices_example :
  Forall plain_record [salary; groceries; opening]
  /\ exists totals,
       @spendingByCategory SampleHost.host [salary; groceries; opening] = Normal totals
       /\ is_Some (totals !! "Food")
       /\ ~ is_Some (totals !! "Income").
Proof.
  split; [exact plain_examples|].
  destruct (@chart_slices SampleHost.host _ plain_examples) as (totals & Hrun & Hslices & _).
  exists totals. split; [exact Hrun|]. split.
  - apply Hslices. exists groceries. repeat split. simpl. tauto.
  - intros Hsome. apply Hslices in Hsome as (tx & Hin & Hc & Hl).
    simpl in Hin. destruct Hin as [<-|[<-|[<-|[]]]]; discriminate.
Defined.

Lemma bucket_app (txs : list value) (tx : value) (j : string) :
  bucket (txs ++ [tx]) j
  = (bucket txs j
     ++ if counted_expense tx && bool_decide (label_of tx = Some j)
        then [abs (amount_of tx)] else [])%list.
Proof.
  unfold bucket. rewrite List.filter_app, List.map_app. simpl.
  destruct (counted_expense tx && bool_decide (label_of tx = Some j)); reflexivity.
Qed.

Lemma entry_total_category (txs : list value) (k : string) :
  entry_total (category_total txs k) = float_sum (bucket txs k).
Proof. unfold category_total. destruct (bucket txs k); reflexivity. Qed.

Lemma float_sum_snoc (l : list number) (x : number) :
  match (l ++ [x])%list with
  | [] => None
  | amounts => Some (PNumber (float_sum amounts))
  end = Some (PNumber (add (float_sum l) x)).
Proof.
  destruct (l ++ [x])%list as [|y rest] eqn:E.
  - apply List.app_eq_nil in E as [_ E]. discriminate.
  - rewrite <- E. unfold float_sum. rewrite List.fold_left_app. reflexivity.
Qed.

(** Adding one record to a list of plain records changes the total of its
    own label and of no other: the other slices are as before, and its own
    grows by the absolute amount when the record is a counted expense. *)
Theorem chart_append `{Host} (txs : list value) (tx : value) (k : string) :
  Forall plain_record txs -> plain_record tx -> label_of tx = Some k ->
  exists before after,
    spendingByCategory txs = Normal before
    /\ spendingByCategory (txs ++ [tx]) = Normal after
    /\ (forall j, j <> k -> after !! j = before !! j)
    /\ after !! k
       = if counted_expense tx
         then Some (PNumber (add (entry_total (before !! k)) (abs (amount_of tx))))
         else before !! k.
Proof.
  intros Hall Htx Hk.
  destruct (spendingByCategory_plain txs Hall) as (before & Hb & Hlb & _).
  assert (Hall' : Forall plain_record (txs ++ [tx])).
  { apply List.Forall_app. split; [exact Hall|]. constructor; [exact Htx|constructor]. }
  destruct (spendingByCategory_plain _ Hall') as (after & Ha & Hla & _).
  exists before, after. split; [exact Hb|]. split; [exact Ha|]. split.
  - intros j Hj. rewrite Hla, Hlb. unfold category_total. rewrite bucket_app.
    rewrite Hk. rewrite (bool_decide_eq_false_2 (Some k = Some j)) by congruence.
    rewrite andb_false_r, List.app_nil_r. reflexivity.
  - rewrite Hla, Hlb, entry_total_category. unfold category_total at 1.
    rewrite bucket_app, Hk. rewrite bool_decide_eq_true_2 by reflexivity.
    rewrite andb_true_r. destruct (counted_expense tx).
    + apply float_sum_snoc.
    + rewrite List.app_nil_r. reflexivity.
Qed.

Lemma plain_bread : plain_record (record "2024-01-10" "Bread" "Food" (of_Z (-20))).
Proof.
  repeat split; try (eexists; reflexivity).
  eexists. split; [reflexivity|].
  intros Hin. apply list_elem_of_In in Hin. simpl in Hin. intuition discriminate.
Qed.

Lemma chart_append_example :
  Forall plain_record [salary; groceries; opening]
  /\ exists before after,
       @spendingByCategory SampleHost.host [salary; groceries; opening] = Normal before
       /\ @spendingByCategory SampleHost.host
            ([salary; groceries; opening] ++ [record "2024-01-10" "Bread" "Food" (of_Z (-20))])
          = Normal after
       /\ after !! "Other" = before !! "Other".
Proof.
  split; [exact plain_examples|].
  destruct (@chart_append SampleHost.host _ _ "Food" plain_examples plain_bread eq_refl)
    as (before & after & Hb & Ha & Hframe & _).
  exists before, after. split; [exact Hb|]. split; [exact Ha|].
  apply Hframe. discriminate.
Defined.

Section ChartExceptions.
Context `{Host}.

Lemma addSpending_key (acc : gmap string prim) (tx : value) (n : number) :
  Get tx amount = Normal (VNumber n) ->
  (forall k, key_of tx = Normal k -> exists acc', addSpending acc tx = Normal acc')
  /\ (forall e, key_of tx = Throw e -> addSpending acc tx = Throw e).
Proof.
  intros Hn. unfold key_of, addSpending.
  destruct (Get tx category ||| Normal (VString "Other")) as [c|e]; simpl.
  - destruct (ToPropertyKey c) as [k|e]; simpl.
    + rewrite Hn. simpl. split; [|discriminate]. intros _ _. eexists; reflexivity.
    + split; [discriminate|]. intros e' [= <-]. reflexivity.
  - split; [discriminate|]. intros e' [= <-]. reflexivity.
Qed.

Lemma reduce_completes (l : list value) (acc : gmap string prim) :
  Forall has_numeric_amount l ->
  ((exists totals, reduceM addSpending l acc = Normal totals)
   <-> Forall (fun tx => exists k, key_of tx = Normal k) l).
Proof.
  intros Hall. revert acc.
  induction Hall as [|tx l [n Hn] _ IH]; intros acc.
  - split; [constructor|]. intros _. exists acc. reflexivity.
  - cbn [reduceM]. destruct (addSpending_key acc tx n Hn) as [Hok Hthrow].
    destruct (key_of tx) as [k|e] eqn:Ek.
    + destruct (Hok k eq_refl) as [acc' ->]. simpl. rewrite IH.
      split; [intros Hl; constructor; [exists k; exact Ek|exact Hl]|].
      intros Hl. inversion Hl; assumption.
    + rewrite (Hthrow e eq_refl). simpl.
      split; [intros [t Ht]; discriminate|].
      intros Hl. inversion Hl as [|? ? [k Hk] ?]. congruence.
Qed.

Lemma isSpending_admitted (tx : value) :
  admitted tx = true -> yields (isSpending tx) (ltb (amount_of tx) zero).
Proof.
  intros Hadm. destruct (admitted_amount tx Hadm) as (n & Hn & _).
  unfold admitted in Hadm. rewrite !andb_true_iff in Hadm.
  destruct Hadm as [[[[[Hs Hsent] _] _] _] _].
  unfold isSpending. fold (isExpense tx).
  rewrite (isExpense_number _ _ Hn), (amount_of_numeric _ _ Hn).
  pose proof (yields_and (Normal (VBoolean (ltb n zero)))
                (d ← Get tx description;
                 Normal (VBoolean (negb (strict_eq_string d "Opening Balance"))))
                (ltb n zero) true (yields_bool _)) as Hy.
  rewrite andb_true_r in Hy. apply Hy. intros _.
  rewrite (Get_structured _ _ Hs).
  change (yields (Normal (VBoolean (not_sentinel tx))) true).
  rewrite Hsent. apply yields_bool.
Qed.

(** On a validated list the category chart completes exactly when the
    category of every expense can be converted to a property key.  A truthy
    category need not be a string, and one that is an object with an own
    [toString] entry makes the chart throw; when every category is a string
    the chart always completes. *)
Theorem chart_completes_iff (valid : list value) :
  Forall (fun tx => admitted tx = true) valid ->
  ((exists totals, spendingByCategory valid = Normal totals)
   <-> Forall (fun tx => ltb (amount_of tx) zero = true -> exists k, key_of tx = Normal k) valid)
  /\ (Forall (fun tx => exists s, field_value tx category = VString s) valid ->
      exists totals, spendingByCategory valid = Normal totals).
Proof.
  intros Hall.
  assert (Hnum : Forall has_numeric_amount valid).
  { eapply Forall_impl; [exact Hall|]. intros tx Htx.
    destruct (admitted_amount tx Htx) as (n & Hn & _). exists n. exact Hn. }
  assert (Hiff : (exists totals, spendingByCategory valid = Normal totals)
                 <-> Forall (fun tx => ltb (amount_of tx) zero = true
                                       -> exists k, key_of tx = Normal k) valid).
  { unfold spendingByCategory.
    rewrite (filterM_Forall isSpending (fun tx => ltb (amount_of tx) zero)).
    2:{ eapply Forall_impl; [exact Hall|]. intros tx. apply isSpending_admitted. }
    simpl. rewrite reduce_completes by (apply Forall_filter_keeps; exact Hnum).
    rewrite !List.Forall_forall. split.
    - intros Hf tx Hin Hneg. apply Hf. apply List.filter_In. split; assumption.
    - intros Hf tx Hin. apply List.filter_In in Hin as [Hin Hneg]. apply Hf; assumption. }
  split; [exact Hiff|].
  intros Hstr. apply Hiff.
  rewrite List.Forall_forall in Hstr, Hall |- *. intros tx Hin _.
  destruct (Hstr tx Hin) as [s Hs]. specialize (Hall tx Hin).
  unfold admitted in Hall. rewrite !andb_true_iff in Hall.
  destruct Hall as [[[[[Hobj _] _] _] _] Hc].
  unfold key_of. rewrite (Get_structured _ _ Hobj), Hs.
  unfold truthy_field in Hc. rewrite Hs in Hc.
  unfold js_or. simpl in Hc |- *. rewrite Hc. simpl. eexists; reflexivity.
Qed.

End ChartExceptions.

Lemma chart_completes_iff_example :
  Forall (fun tx => admitted tx = true) [salary; unkeyable]
  /\ ~ (exists totals, @spendingByCategory SampleHost.host [salary; unkeyable] = Normal totals).
Proof.
  assert (Hall : Forall (fun tx => admitted tx = true) [salary; unkeyable]).
  { repeat constructor. }
  split; [exact Hall|].
  destruct (@chart_completes_iff SampleHost.host _ Hall) as [Hiff _].
  intros Hrun. apply Hiff in Hrun.
  inversion Hrun as [|? ? _ Hrest]. inversion Hrest as [|? ? Hbad _].
  destruct (Hbad eq_refl) as [k Hk]. discriminate.
Defined.

(** ** Sums of amounts of one sign are never zero *)

Lemma digits_shr_1 (mrs : shr_record) :
  0 <= shr_m mrs ->
  Zdigits2 (shr_m (shr_1 mrs)) = Z.max 0 (Zdigits2 (shr_m mrs) - 1).
Proof.
  destruct mrs as [m r s]. simpl. intros Hm.
  destruct m as [|[p|p|]|p]; simpl; lia.
Qed.

Lemma digits_iter_shr_1 (p : positive) (mrs : shr_record) :
  0 <= shr_m mrs ->
  Zdigits2 (shr_m (SpecFloat.iter_pos shr_1 p mrs))
  = Z.max 0 (Zdigits2 (shr_m mrs) - Z.pos p).
Proof.
  revert mrs. induction p as [p IH|p IH|]; intros mrs Hm; simpl.
  - assert (H1 : 0 <= shr_m (shr_1 mrs)) by (apply shr_1_nonneg; exact Hm).
    assert (H2 : 0 <= shr_m (SpecFloat.iter_pos shr_1 p (shr_1 mrs))).
    { apply (iter_pos_invariant shr_1 (fun x => 0 <= shr_m x)); [apply shr_1_nonneg|exact H1]. }
    rewrite (IH _ H2), (IH _ H1), (digits_shr_1 _ Hm). lia.
  - assert (H2 : 0 <= shr_m (SpecFloat.iter_pos shr_1 p mrs)).
    { apply (iter_pos_invariant shr_1 (fun x => 0 <= shr_m x)); [apply shr_1_nonneg|exact Hm]. }
    rewrite (IH _ H2), (IH _ Hm). lia.
  - apply digits_shr_1. exact Hm.
Qed.

Lemma digits_positive (z : Z) : 0 <= z -> (0 < Zdigits2 z <-> 0 < z).
Proof. destruct z as [|p|p]; simpl; lia. Qed.

(** Shifting a positive mantissa to its format exponent keeps it positive
    when the exponent is not below [emin]. *)
Lemma shr_fexp_positive (m e : Z) (l : location) :
  0 < m -> 3 - emax - prec <= e ->
  0 < shr_m (fst (shr_fexp prec emax m e l))
  /\ 3 - emax - prec <= snd (shr_fexp prec emax m e l).
Proof.
  intros Hm He. unfold shr_fexp, fexp, SpecFloat.emin.
  assert (Hrec : shr_m (shr_record_of_loc m l) = m) by (destruct l as [|[]]; reflexivity).
  set (n := Z.max (Zdigits2 m + e - prec) (3 - emax - prec) - e).
  unfold shr. destruct n as [|p|p] eqn:En; simpl; try (rewrite Hrec; lia).
  split; [|lia].
  apply digits_positive.
  - apply (iter_pos_invariant shr_1 (fun x => 0 <= shr_m x)); [apply shr_1_nonneg|].
    rewrite Hrec. lia.
  - rewrite digits_iter_shr_1 by (rewrite Hrec; lia). rewrite Hrec.
    unfold prec in *. lia.
Qed.

Lemma round_nearest_even_positive (m : Z) (l : location) :
  0 < m -> 0 < round_nearest_even m l.
Proof.
  intros Hm. destruct l as [|[]]; simpl; try lia.
  destruct (Z.even m); lia.
Qed.

(** Rounding a positive mantissa at a grounded exponent gives a number that
    is not zero: a finite one with the given sign, or an infinity. *)
Lemma binary_round_aux_nonzero (sx : bool) (m e : Z) (l : location) :
  0 < m -> 3 - emax - prec <= e ->
  let x := binary_round_aux prec emax sx m e l in
  has_sign sx x = true /\ is_zero x = false /\ grounded x = true.
Proof.
  intros Hm He. cbv zeta. unfold binary_round_aux.
  destruct (shr_fexp_positive m e l Hm He) as [H1 E1].
  destruct (shr_fexp prec emax m e l) as [mrs' e']. simpl in H1, E1.
  destruct (shr_fexp_positive _ e' loc_Exact
              (round_nearest_even_positive _ (loc_of_shr_record mrs') H1) E1) as [H2 E2].
  destruct (shr_fexp prec emax _ e' loc_Exact) as [mrs'' e'']. simpl in H2, E2.
  destruct (shr_m mrs'') as [|p|p]; try lia.
  destruct (e'' <=? emax - prec); simpl.
  - repeat split; [destruct sx; reflexivity|]. apply Z.leb_le. exact E2.
  - repeat split. destruct sx; reflexivity.
Qed.

Lemma binary_round_nonzero (sx : bool) (m : positive) (e : Z) :
  3 - emax - prec <= e ->
  let x := binary_round prec emax sx m e in
  has_sign sx x = true /\ is_zero x = false /\ grounded x = true.
Proof.
  intros He. cbv zeta. unfold binary_round.
  destruct (shl_align m e (fexp prec emax (Z.pos (digits2_pos m) + e))) as [mz ez] eqn:E.
  apply binary_round_aux_nonzero; [lia|].
  unfold shl_align in E.
  destruct (fexp prec emax (Z.pos (digits2_pos m) + e) - e) as [|d|d] eqn:Ed;
    injection E as <- <-; try exact He.
  unfold fexp, SpecFloat.emin. lia.
Qed.

(** Two positive doubles add up to a positive double, two negative ones to a
    negative one: a sum of amounts of one sign cannot cancel or vanish. *)
Lemma add_same_sign (sx : bool) (x y : number) :
  has_sign sx x = true -> is_zero x = false -> grounded x = true ->
  has_sign sx y = true -> is_zero y = false -> grounded y = true ->
  has_sign sx (add x y) = true /\ is_zero (add x y) = false /\ grounded (add x y) = true.
Proof.
  destruct x as [s|s| |s mx ex], y as [t|t| |t my ey]; try discriminate; simpl;
    intros Hx _ Gx Hy _ Gy;
    apply Bool.eqb_prop in Hx; apply Bool.eqb_prop in Hy; subst s t.
  - destruct sx; repeat split; reflexivity.
  - destruct sx; repeat split; reflexivity.
  - destruct sx; repeat split; reflexivity.
  - apply Z.leb_le in Gx, Gy. unfold add, SFadd, cond_Zopp.
    destruct sx.
    + change (- Z.pos ?a + - Z.pos ?b) with (Z.neg (a + b)).
      apply (binary_round_nonzero true). lia.
    + change (Z.pos ?a + Z.pos ?b) with (Z.pos (a + b)).
      apply (binary_round_nonzero false). lia.
Qed.

Lemma fold_add_same_sign (sx : bool) (l : list number) (start : number) :
  has_sign sx start = true -> is_zero start = false -> grounded start = true ->
  Forall (fun n => has_sign sx n = true /\ is_zero n = false /\ grounded n = true) l ->
  has_sign sx (fold_left add l start) = true /\ is_zero (fold_left add l start) = false.
Proof.
  intros Hs Hz Hg Hall. revert start Hs Hz Hg.
  induction Hall as [|n l (Hn & Zn & Gn) _ IH]; intros start Hs Hz Hg; simpl.
  - split; assumption.
  - destruct (add_same_sign sx start n Hs Hz Hg Hn Zn Gn) as (H1 & H2 & H3).
    apply IH; assumption.
Qed.

(** From 0, a non-empty sum of amounts of one sign has that sign and is
    not zero. *)
Lemma float_sum_same_sign (sx : bool) (l : list number) :
  l <> [] ->
  Forall (fun n => has_sign sx n = true /\ is_zero n = false /\ grounded n = true) l ->
  has_sign sx (float_sum l) = true /\ is_zero (float_sum l) = false.
Proof.
  intros Hne Hall. destruct l as [|x l]; [contradiction|].
  inversion Hall as [|? ? (Hx & Zx & Gx) Hrest]; subst.
  unfold float_sum. cbn [fold_left].
  assert (Hadd : add zero x = x).
  { destruct x as [[]|[]| |[] m e]; try discriminate; reflexivity. }
  rewrite Hadd. apply fold_add_same_sign; assumption.
Qed.

Lemma positive_has_sign (n : number) :
  ltb zero n = true -> has_sign false n = true /\ is_zero n = false.
Proof. destruct n as [[]|[]| |[] m e]; try discriminate; split; reflexivity. Qed.

Lemma negative_nonzero (n : number) :
  ltb n zero = true -> has_sign true n = true /\ is_zero n = false.
Proof. destruct n as [[]|[]| |[] m e]; try discriminate; split; reflexivity. Qed.

Lemma has_sign_positive (n : number) :
  has_sign false n = true -> is_zero n = false -> ltb zero n = true.
Proof. destruct n as [[]|[]| |[] m e]; try discriminate; reflexivity. Qed.

Lemma has_sign_negative (n : number) :
  has_sign true n = true -> is_zero n = false -> ltb n zero = true.
Proof. destruct n as [[]|[]| |[] m e]; try discriminate; reflexivity. Qed.

Lemma filter_nonempty {A : Type} (p : A -> bool) (l : list A) :
  List.filter p l <> [] <-> exists x, In x l /\ p x = true.
Proof.
  split.
  - destruct (List.filter p l) as [|x rest] eqn:E; [contradiction|]. intros _.
    assert (Hin : In x (List.filter p l)) by (rewrite E; left; reflexivity).
    apply List.filter_In in Hin. exists x. exact Hin.
  - intros (x & Hin & Hp) Hempty.
    assert (Hf : In x (List.filter p l)) by (apply List.filter_In; split; assumption).
    rewrite Hempty in Hf. contradiction.
Qed.

Lemma grounded_amount_of (tx : value) :
  has_grounded_amount tx -> has_numeric_amount tx /\ grounded (amount_of tx) = true.
Proof.
  intros (n & Hn & Hg). split; [exists n; exact Hn|].
  unfold amount_of. rewrite (Get_field_value tx amount (PNumber n)); [exact Hg|discriminate|exact Hn].
Qed.

(** With amounts that are doubles of the format, a total is zero only when
    there is nothing to add: [totalIncome] is above 0 exactly when some amount
    is, and [totalExpenses] is below 0 exactly when some amount is. *)
Theorem summary_totals_strict `{Host} (txs : list value) :
  Forall has_grounded_amount txs ->
  exists i e n,
    DashboardMetrics txs
    = Normal {| totalIncome := PNumber i; totalExpenses := PNumber e; netSavings := PNumber n |}
    /\ (ltb zero i = true <-> exists tx, In tx txs /\ ltb zero (amount_of tx) = true)
    /\ (ltb e zero = true <-> exists tx, In tx txs /\ ltb (amount_of tx) zero = true).
Proof.
  intros Hall.
  assert (Hnum : Forall has_numeric_amount txs).
  { eapply Forall_impl; [exact Hall|]. intros tx Htx. apply grounded_amount_of. exact Htx. }
  assert (Hground : forall tx, In tx txs -> grounded (amount_of tx) = true).
  { rewrite List.Forall_forall in Hall. intros tx Hin.
    apply grounded_amount_of. apply Hall. exact Hin. }
  rewrite (DashboardMetrics_numeric txs Hnum).
  eexists _, _, _. split; [reflexivity|].
  unfold sum_of_positive, sum_of_negative.
  rewrite <- (filter_map_comm amount_of (fun n => ltb zero n)).
  rewrite <- (filter_map_comm amount_of (fun n => ltb n zero)).
  split.
  - rewrite <- (filter_nonempty (fun tx => ltb zero (amount_of tx)) txs).
    destruct (List.filter (fun tx => ltb zero (amount_of tx)) txs) as [|x rest] eqn:E.
    + split; [discriminate|contradiction].
    + split; [discriminate|]. intros _. rewrite <- E.
      assert (Hs : has_sign false (float_sum (map amount_of (List.filter (fun tx => ltb zero (amount_of tx)) txs))) = true
                   /\ is_zero (float_sum (map amount_of (List.filter (fun tx => ltb zero (amount_of tx)) txs))) = false).
      { apply float_sum_same_sign; [rewrite E; discriminate|].
        apply List.Forall_forall. intros n Hn. apply List.in_map_iff in Hn as (tx & <- & Hin).
        apply List.filter_In in Hin as [Hin Hp].
        destruct (positive_has_sign _ Hp). repeat split; try assumption. apply Hground. exact Hin. }
      destruct Hs. apply has_sign_positive; assumption.
  - rewrite <- (filter_nonempty (fun tx => ltb (amount_of tx) zero) txs).
    destruct (List.filter (fun tx => ltb (amount_of tx) zero) txs) as [|x rest] eqn:E.
    + split; [discriminate|contradiction].
    + split; [discriminate|]. intros _. rewrite <- E.
      assert (Hs : has_sign true (float_sum (map amount_of (List.filter (fun tx => ltb (amount_of tx) zero) txs))) = true
                   /\ is_zero (float_sum (map amount_of (List.filter (fun tx => ltb (amount_of tx) zero) txs))) = false).
      { apply float_sum_same_sign; [rewrite E; discriminate|].
        apply List.Forall_forall. intros n Hn. apply List.in_map_iff in Hn as (tx & <- & Hin).
        apply List.filter_In in Hin as [Hin Hp].
        destruct (negative_nonzero _ Hp). repeat split; try assumption. apply Hground. exact Hin. }
      destruct Hs. apply has_sign_negative; assumption.
Qed.

Lemma summary_totals_strict_example :
  Forall has_grounded_amount [salary; freebie]
  /\ exists i e n,
       @DashboardMetrics SampleHost.host [salary; freebie]
       = Normal {| totalIncome := PNumber i; totalExpenses := PNumber e;
                   netSavings := PNumber n |}
       /\ ltb zero i = true
       /\ ltb e zero = false.
Proof.
  assert (Hall : Forall has_grounded_amount [salary; freebie]).
  { repeat constructor; eexists; split; reflexivity. }
  split; [exact Hall|].
  destruct (@summary_totals_strict SampleHost.host _ Hall) as (i & e & n & Hrun & Hi & He).
  exists i, e, n. split; [exact Hrun|]. split.
  - apply Hi. exists salary. split; [left; reflexivity|reflexivity].
  - destruct (ltb e zero) eqn:E; [|reflexivity].
    destruct He as [He _]. destruct (He eq_refl) as (tx & Hin & Hneg).
    simpl in Hin. destruct Hin as [<-|[<-|[]]]; discriminate.
Defined.

Lemma abs_grounded (n : number) : grounded n = true -> grounded (abs n) = true.
Proof. destruct n; intros Hg; exact Hg. Qed.

(** On plain records whose amounts are doubles of the format every slice of
    the chart is a number strictly above 0. *)
Theorem chart_totals_positive `{Host} (txs : list value) :
  Forall plain_record txs -> Forall has_grounded_amount txs ->
  exists totals,
    spendingByCategory txs = Normal totals
    /\ map_Forall (fun _ p => exists n, p = PNumber n /\ ltb zero n = true) totals.
Proof.
  intros Hplain Hall.
  destruct (spendingByCategory_plain txs Hplain) as (totals & Hrun & Hlook & _).
  exists totals. split; [exact Hrun|].
  intros k p Hk. rewrite Hlook in Hk. unfold category_total in Hk.
  destruct (bucket txs k) as [|x rest] eqn:E; [discriminate|].
  injection Hk as <-. eexists. split; [reflexivity|]. rewrite <- E.
  assert (Hs : has_sign false (float_sum (bucket txs k)) = true
               /\ is_zero (float_sum (bucket txs k)) = false).
  { apply float_sum_same_sign; [rewrite E; discriminate|].
    apply List.Forall_forall. intros n Hn. unfold bucket in Hn.
    apply List.in_map_iff in Hn as (tx & <- & Hin).
    apply List.filter_In in Hin as [Hin Hc].
    apply andb_prop in Hc as [Hc _]. unfold counted_expense in Hc.
    apply andb_prop in Hc as [Hneg _].
    rewrite List.Forall_forall in Hall.
    destruct (grounded_amount_of tx (Hall tx Hin)) as [_ Hg].
    destruct (amount_of tx) as [[]|[]| |[] m e]; try discriminate; repeat split; exact Hg. }
  destruct Hs. apply has_sign_positive; assumption.
Qed.

Lemma chart_totals_positive_example :
  Forall plain_record [salary; groceries; opening]
  /\ exists totals,
       @spendingByCategory SampleHost.host [salary; groceries; opening] = Normal totals
       /\ map_Forall (fun _ p => exists n, p = PNumber n /\ ltb zero n = true) totals.
Proof.
  split; [exact plain_examples|].
  apply (@chart_totals_positive SampleHost.host _ plain_examples).
  repeat constructor; eexists; split; reflexivity.
Defined.

(** Every valid double of the format is grounded. *)
Lemma valid_binary_grounded (x : number) :
  valid_binary prec emax x = true -> grounded x = true.
Proof.
  destruct x as [s|s| |s m e]; try reflexivity. simpl.
  unfold bounded, canonical_mantissa, fexp, SpecFloat.emin.
  intros Hv. apply andb_prop in Hv as [Hc _]. apply Z.eqb_eq in Hc.
  apply Z.leb_le. lia.
Qed.

(** ** The category totals of a response *)

Lemma admitted_plain (tx : value) (s : string) :
  admitted tx = true -> field_value tx category = VString s ->
  s ∉ ObjectPrototype_names -> plain_record tx.
Proof.
  intros Hadm Hc Hs. unfold admitted in Hadm. rewrite !andb_true_iff in Hadm.
  destruct Hadm as [[[[[Hobj _] Hn] _] _] Ht].
  split; [exact Hobj|]. split.
  - unfold numeric_amount in Hn.
    destruct (field_value tx amount) as [[| |b|n|t]|o|l]; try discriminate.
    exists n. reflexivity.
  - exists s. split; [|exact Hs]. unfold label_of. rewrite Hc.
    unfold truthy_field in Ht. rewrite Hc in Ht. simpl in Ht.
    apply negb_true_iff in Ht. rewrite Ht. reflexivity.
Qed.

(** For a response whose records carry string categories, none of them the
    name of a member inherited from [Object.prototype], the chart's totals
    are, label by label, the sum of the absolute amounts of the validated
    expenses with that label, each a number that is at least 0. *)
Theorem categoryTotalsOf_plain `{Host} (elems : list value) :
  Forall (fun tx => admitted tx = true ->
                    exists s, field_value tx category = VString s
                              /\ s ∉ ObjectPrototype_names) elems ->
  exists valid totals,
    validTransactions (VArray elems) = Normal valid
    /\ categoryTotalsOf (VArray elems) = Normal totals
    /\ (forall k, totals !! k = category_total valid k)
    /\ map_Forall (fun _ p => exists n, p = PNumber n /\ leb zero n = true) totals.
Proof.
  intros Hcat. unfold categoryTotalsOf. rewrite validTransactions_filter. simpl.
  assert (Hplain : Forall plain_record (List.filter admitted elems)).
  { apply List.Forall_forall. intros tx Hin. apply List.filter_In in Hin as [Hin Hadm].
    rewrite List.Forall_forall in Hcat. destruct (Hcat tx Hin Hadm) as (s & Hc & Hs).
    exact (admitted_plain tx s Hadm Hc Hs). }
  destruct (spendingByCategory_plain _ Hplain) as (totals & Hrun & Hlook & Hpos).
  exists (List.filter admitted elems), totals. repeat split; assumption.
Qed.

Lemma categoryTotalsOf_plain_example :
  exists valid totals,
    @validTransactions SampleHost.host (VArray [opening; groceries; VNull]) = Normal valid
    /\ @categoryTotalsOf SampleHost.host (VArray [opening; groceries; VNull]) = Normal totals
    /\ totals !! "Food" = category_total valid "Food".
Proof.
  destruct (@categoryTotalsOf_plain SampleHost.host [opening; groceries; VNull])
    as (valid & totals & Hv & Hrun & Hlook & _).
  { repeat constructor; intros Hadm; try discriminate.
    exists "Food". split; [reflexivity|].
    intros Hin. apply list_elem_of_In in Hin. simpl in Hin. intuition discriminate. }
  exists valid, totals. split; [exact Hv|]. split; [exact Hrun|apply Hlook].
Defined.
